(** * yt-dlp self-update: a shallow embedding of [yt_dlp/update.py]

    The development follows the Python source function by function.
    Python library calls ([str.split], [int], [hashlib.sha256], [os.rename],
    ...) are modelled by small executable definitions; the update routine
    itself runs in a state-and-exception monad over an explicit file system
    and an event log. *)

From Stdlib Require Import ZArith Ascii Lia.
From Stdlib.Strings Require Import Byte.
From stdpp Require Import base option list strings gmap.

Local Open Scope Z_scope.

(** ** Python built-ins on text *)

Module Py.

Definition chr (n : nat) : ascii := ascii_of_nat n.
Definition ord (c : ascii) : nat := nat_of_ascii c.

(** [str.isspace] on the ASCII range: TAB, LF, VT, FF, CR, FS, GS, RS, US
    and the blank. *)
Definition isspace (c : ascii) : bool :=
  let n := ord c in
  ((9 <=? n) && (n <=? 13) || (28 <=? n) && (n <=? 32))%nat.

(** Line boundaries of [str.splitlines] on the ASCII range. *)
Definition islinebreak (c : ascii) : bool :=
  let n := ord c in
  ((10 <=? n) && (n <=? 13) || (28 <=? n) && (n <=? 30))%nat.

Definition isdigit (c : ascii) : bool :=
  let n := ord c in ((48 <=? n) && (n <=? 57))%nat.

Definition digit_value (c : ascii) : Z := Z.of_nat (ord c) - 48.

Fixpoint of_list (l : list ascii) : string :=
  match l with
  | [] => EmptyString
  | c :: l' => String c (of_list l')
  end.

Fixpoint to_list (s : string) : list ascii :=
  match s with
  | EmptyString => []
  | String c s' => c :: to_list s'
  end.

(** [s.split(sep)] for a one-character separator: always at least one
    field, empty fields are kept. *)
Fixpoint split_on_go (sep : ascii) (cur : list ascii) (s : string) : list string :=
  match s with
  | EmptyString => [of_list (rev cur)]
  | String c s' =>
      if Ascii.eqb c sep
      then of_list (rev cur) :: split_on_go sep [] s'
      else split_on_go sep (c :: cur) s'
  end.

Definition split_on (sep : ascii) (s : string) : list string :=
  split_on_go sep [] s.

(** [s.split()]: the maximal runs of non-blank characters. *)
Fixpoint split_go (cur : list ascii) (s : string) : list string :=
  match s with
  | EmptyString =>
      match cur with [] => [] | _ => [of_list (rev cur)] end
  | String c s' =>
      if isspace c
      then match cur with
           | [] => split_go [] s'
           | _ => of_list (rev cur) :: split_go [] s'
           end
      else split_go (c :: cur) s'
  end.

Definition split (s : string) : list string := split_go [] s.

(** [s.splitlines()]: a CR LF pair is one boundary, and a final boundary
    opens no further line. *)
Fixpoint splitlines_go (after_cr : bool) (cur : list ascii) (s : string)
  : list string :=
  match s with
  | EmptyString =>
      match cur with [] => [] | _ => [of_list (rev cur)] end
  | String c s' =>
      if after_cr && Ascii.eqb c (chr 10) then splitlines_go false cur s'
      else if islinebreak c
           then of_list (rev cur) :: splitlines_go (Ascii.eqb c (chr 13)) [] s'
           else splitlines_go false (c :: cur) s'
  end.

Definition splitlines (s : string) : list string := splitlines_go false [] s.

(** [s.strip()] *)
Fixpoint lstrip (s : string) : string :=
  match s with
  | String c s' => if isspace c then lstrip s' else s
  | EmptyString => EmptyString
  end.

Definition strip (s : string) : string :=
  of_list (rev (to_list (lstrip (of_list (rev (to_list (lstrip s))))))).

(** Decimal digits with single underscores allowed between digits, as
    [int] accepts them; [after_digit] tells whether the previous character
    was a digit. *)
Fixpoint digits_go (after_digit : bool) (acc : Z) (s : string) : option Z :=
  match s with
  | EmptyString => if after_digit then Some acc else None
  | String c s' =>
      if isdigit c then digits_go true (10 * acc + digit_value c) s'
      else if Ascii.eqb c (chr 95) && after_digit
           then match s' with
                | String d _ => if isdigit d then digits_go false acc s' else None
                | EmptyString => None
                end
           else None
  end.

(** [int(s)] in base ten; [None] stands for [ValueError]. *)
Definition int (s : string) : option Z :=
  match strip s with
  | String c s' =>
      if Ascii.eqb c (chr 45) then Z.opp <$> digits_go false 0 s'
      else if Ascii.eqb c (chr 43) then digits_go false 0 s'
      else digits_go false 0 (String c s')
  | EmptyString => None
  end.

(** [needle in hay] for two strings: substring test. *)
Fixpoint contains (hay needle : string) : bool :=
  String.prefix needle hay ||
  match hay with
  | EmptyString => false
  | String _ hay' => contains hay' needle
  end.

(** [a >= b] on tuples of integers: the first differing position decides,
    otherwise the longer tuple is the greater. *)
Fixpoint tuple_ge (a b : list Z) : bool :=
  match a, b with
  | _, [] => true
  | [], _ :: _ => false
  | x :: a', y :: b' => if x =? y then tuple_ge a' b' else y <? x
  end.

(** [x in (a, b, ...)] for strings *)
Definition in_tuple (x : string) (t : list string) : bool :=
  existsb (String.eqb x) t.

(** [s[:n]] *)
Fixpoint prefix_slice (n : nat) (s : string) : string :=
  match n, s with
  | S n', String c s' => String c (prefix_slice n' s')
  | _, _ => EmptyString
  end.

End Py.

(** ** [hashlib.sha256]

    The digest function follows FIPS 180-4 on 32-bit words held in [Z]; the
    hash object is taken through its documented interface. *)

Module Sha256.

Definition wrap (x : Z) : Z := x mod 2 ^ 32.
Definition add (x y : Z) : Z := wrap (x + y).
Definition rotr (n x : Z) : Z := Z.lor (Z.shiftr x n) (wrap (Z.shiftl x (32 - n))).
Definition shr (n x : Z) : Z := Z.shiftr x n.
Definition lnot32 (x : Z) : Z := 2 ^ 32 - 1 - x.

Definition Ch (x y z : Z) : Z := Z.lxor (Z.land x y) (Z.land (lnot32 x) z).
Definition Maj (x y z : Z) : Z :=
  Z.lxor (Z.lxor (Z.land x y) (Z.land x z)) (Z.land y z).
Definition Sigma0 (x : Z) : Z := Z.lxor (Z.lxor (rotr 2 x) (rotr 13 x)) (rotr 22 x).
Definition Sigma1 (x : Z) : Z := Z.lxor (Z.lxor (rotr 6 x) (rotr 11 x)) (rotr 25 x).
Definition sigma0 (x : Z) : Z := Z.lxor (Z.lxor (rotr 7 x) (rotr 18 x)) (shr 3 x).
Definition sigma1 (x : Z) : Z := Z.lxor (Z.lxor (rotr 17 x) (rotr 19 x)) (shr 10 x).

Definition K : list Z :=
  [ 1116352408; 1899447441; 3049323471; 3921009573; 961987163; 1508970993;
    2453635748; 2870763221; 3624381080; 310598401; 607225278; 1426881987;
    1925078388; 2162078206; 2614888103; 3248222580; 3835390401; 4022224774;
    264347078; 604807628; 770255983; 1249150122; 1555081692; 1996064986;
    2554220882; 2821834349; 2952996808; 3210313671; 3336571891; 3584528711;
    113926993; 338241895; 666307205; 773529912; 1294757372; 1396182291;
    1695183700; 1986661051; 2177026350; 2456956037; 2730485921; 2820302411;
    3259730800; 3345764771; 3516065817; 3600352804; 4094571909; 275423344;
    430227734; 506948616; 659060556; 883997877; 958139571; 1322822218;
    1537002063; 1747873779; 1955562222; 2024104815; 2227730452; 2361852424;
    2428436474; 2756734187; 3204031479; 3329325298 ].

Definition H0 : list Z :=
  [ 1779033703; 3144134277; 1013904242; 2773480762;
    1359893119; 2600822924; 528734635; 1541459225 ].

Definition byte_val (b : byte) : Z := Z.of_N (Byte.to_N b).

Definition byte_of_Z (x : Z) : byte :=
  match Byte.of_N (Z.to_N (x mod 256)) with
  | Some b => b
  | None => x00
  end.

(** Big-endian encoding of [x] on [n] bytes. *)
Fixpoint be_bytes (n : nat) (x : Z) : list byte :=
  match n with
  | O => []
  | S n' => byte_of_Z (Z.shiftr x (8 * Z.of_nat n')) :: be_bytes n' x
  end.

(** The message followed by the bit 1, zero bits and its length in bits,
    filling whole 64-byte blocks. *)
Definition pad (msg : list byte) : list byte :=
  let len := Z.of_nat (length msg) in
  let zeros := Z.to_nat ((55 - len) mod 64) in
  msg ++ [x80] ++ repeat x00 zeros ++ be_bytes 8 (8 * len).

Fixpoint words (bs : list byte) : list Z :=
  match bs with
  | a :: b :: c :: d :: rest =>
      (byte_val a * 2 ^ 24 + byte_val b * 2 ^ 16 + byte_val c * 2 ^ 8 + byte_val d)
        :: words rest
  | _ => []
  end.

(** The message schedule, most recent word first. *)
Fixpoint schedule (n : nat) (w : list Z) : list Z :=
  match n with
  | O => w
  | S n' =>
      let x := add (add (sigma1 (nth 1 w 0)) (nth 6 w 0))
                   (add (sigma0 (nth 14 w 0)) (nth 15 w 0)) in
      schedule n' (x :: w)
  end.

Definition round (st : list Z) (kw : Z * Z) : list Z :=
  match st with
  | [a; b; c; d; e; f; g; h] =>
      let t1 := add (add (add h (Sigma1 e)) (add (Ch e f g) (fst kw))) (snd kw) in
      let t2 := add (Sigma0 a) (Maj a b c) in
      [add t1 t2; a; b; c; add d t1; e; f; g]
  | _ => st
  end.

Definition compress (h : list Z) (block : list Z) : list Z :=
  let w := rev (schedule 48 (rev block)) in
  zip_with add h (fold_left round (zip K w) h).

Fixpoint absorb (fuel : nat) (h : list Z) (ws : list Z) : list Z :=
  match fuel, ws with
  | S fuel', _ :: _ => absorb fuel' (compress h (take 16 ws)) (drop 16 ws)
  | _, _ => h
  end.

Definition hex_digit (x : Z) : ascii :=
  if x <? 10 then Py.chr (Z.to_nat (48 + x)) else Py.chr (Z.to_nat (87 + x)).

Fixpoint hex_word (n : nat) (x : Z) : string :=
  match n with
  | O => EmptyString
  | S n' => String (hex_digit (Z.shiftr x (4 * Z.of_nat n') mod 16)) (hex_word n' x)
  end.

Definition digest_words (msg : list byte) : list Z :=
  let ws := words (pad msg) in absorb (length ws) H0 ws.

(** Lower-case hexadecimal digest of a whole message. *)
Definition hexdigest_of (msg : list byte) : string :=
  foldr (fun w s => hex_word 8 w +:+ s) EmptyString (digest_words msg).

End Sha256.

(** The part of a [hashlib] hash object the updater relies on. The laws are
    the library's contract: feeding data piecewise is feeding the
    concatenation, and feeding nothing changes nothing. *)
Class Hashlib := {
  hash_obj : Type;
  sha256_new : hash_obj;
  hash_update : hash_obj -> list byte -> hash_obj;
  hash_hexdigest : hash_obj -> string;
  hash_update_app : forall h a b, hash_update (hash_update h a) b = hash_update h (a ++ b);
  hash_update_nil : forall h, hash_update h [] = h;
}.

(** [hashlib.sha256(data)] *)
Definition sha256_of `{Hashlib} (data : list byte) : hash_obj :=
  hash_update sha256_new data.

(** [hashlib.sha256(data).hexdigest()]: the digest of a whole buffer at
    once, as line 202 takes it of the downloaded package. *)
Definition digest_one_shot `{Hashlib} (data : list byte) : string :=
  hash_hexdigest (sha256_of data).

(** SHA-256 seen through that interface: the object stands for the bytes
    fed to it so far. *)
#[export] Program Instance sha256_hashlib : Hashlib := {|
  hash_obj := list byte;
  sha256_new := [];
  hash_update h data := h ++ data;
  hash_hexdigest h := Sha256.hexdigest_of h;
|}.
Next Obligation. intros. symmetry. apply app_assoc. Qed.
Next Obligation. intros. apply app_nil_r. Qed.

(** ** Data model *)

(** The strings [detect_variant] can return. *)
Inductive Variant :=
| WinDir | WinExe | MacDir | MacExe | Py2exe | Zip | Source | Unknown.

Definition variant_str (v : Variant) : string :=
  match v with
  | WinDir => "win_dir" | WinExe => "win_exe"
  | MacDir => "mac_dir" | MacExe => "mac_exe"
  | Py2exe => "py2exe" | Zip => "zip"
  | Source => "source" | Unknown => "unknown"
  end.

(** One entry of the [assets] list of the release JSON; a missing or null
    [browser_download_url] is [None]. *)
Record Asset := {
  name : string;
  browser_download_url : option string;
}.

(** The parsed release JSON ([version_info]), taken to have the shape the
    releases API gives it: a [tag_name] and a list of named assets. *)
Record Release := {
  tag_name : string;
  assets : list Asset;
}.

(** Calls into the operating system that can be refused with [OSError]. *)
Inductive os_call :=
| OsOpenRead (path : string)
| OsOpenWrite (path : string)
| OsWrite (path : string)
| OsRemove (path : string)
| OsRename (src dst : string)
| OsPopen (cmd : string).

#[global] Instance os_call_eq_dec : EqDecision os_call.
Proof. solve_decision. Defined.

(** Everything [run_update] reads from its surroundings. *)
Record Env := {
  version : string;                       (* yt_dlp.version.__version__ *)
  sys_frozen : bool;                      (* hasattr(sys, 'frozen') *)
  sys_platform : string;
  sys_MEIPASS : option string;            (* getattr(sys, '_MEIPASS', None) *)
  sys_executable : string;
  sys_argv0 : string;
  loader_is_zipimporter : bool;           (* isinstance(__loader__, zipimporter) *)
  os_path_dirname : string -> string;
  os_path_basename : string -> string;
  os_path_realpath : string -> string;
  platform_architecture : string;         (* platform.architecture()[0] *)
  latest_release : option Release;        (* JSON_URL fetched, decoded and parsed;
                                             None when any of that raises *)
  urlopen_read : string -> option (list byte);  (* None: the opener raises URLError *)
  os_access_w : string -> bool;           (* os.access(path, os.W_OK) *)
  os_fault : os_call -> bool;             (* the OS refuses this call *)
  read_size : nat -> nat;                 (* bytes offered by the k-th raw read *)
}.

(** What the routine does to the outside. File-system entries record calls
    that took effect. *)
Inductive event :=
| ToScreen (msg : string)
| ReportWarning (msg : string)
| ReportError (msg : string) (tb_suppressed : bool)
| UrlOpen (url : string)
| FsCreate (path : string)
| FsWrite (path : string) (data : list byte)
| FsRemove (path : string)
| FsRename (src dst : string)
| Spawned (cmd : string).

(** The files by path, and the events so far, newest first. *)
Record World := {
  fs : gmap string (list byte);
  log : list event;
}.

(** The events in the order they happened. *)
Definition history (w : World) : list event := rev (log w).

Inductive exn := OSError | KeyError | ValueError | AssertionError.

(** [run_update] returns [None] or [True]. *)
Inductive retval := PyNone | PyTrue.

(** ** Control flow: a step continues, returns from the function or raises *)

Inductive ctl (A : Type) :=
| Next (a : A)
| Return (r : retval)
| Raise (e : exn).
Arguments Next {A} a.
Arguments Return {A} r.
Arguments Raise {A} e.

Definition M (A : Type) : Type := World -> ctl A * World.

Definition pure {A} (a : A) : M A := fun w => (Next a, w).
Definition ret {A} (r : retval) : M A := fun w => (Return r, w).
Definition raise {A} (e : exn) : M A := fun w => (Raise e, w).

Definition bind {A B} (m : M A) (k : A -> M B) : M B :=
  fun w =>
    match m w with
    | (Next a, w') => k a w'
    | (Return r, w') => (Return r, w')
    | (Raise e, w') => (Raise e, w')
    end.

Declare Scope py_scope.
Delimit Scope py_scope with py.
Notation "x <- m ; k" := (bind m (fun x => k))
  (at level 100, m at next level, right associativity) : py_scope.
Notation "m ;; k" := (bind m (fun _ => k))
  (at level 100, right associativity) : py_scope.

(** [try: body  except <catches>: handler] *)
Definition try_except {A} (body : M A) (catches : exn -> bool) (handler : M A) : M A :=
  fun w =>
    match body w with
    | (Raise e, w') => if catches e then handler w' else (Raise e, w')
    | r => r
    end.

Definition is_OSError (e : exn) : bool :=
  match e with OSError => true | _ => false end.
Definition any_Exception (e : exn) : bool := true.

Definition emit (e : event) : M unit :=
  fun w => (Next tt, {| fs := fs w; log := e :: log w |}).

(** Python truthiness of a string or [None]. *)
Definition truthy (s : option string) : bool :=
  match s with
  | Some (String _ _) => true
  | _ => false
  end.

Fixpoint dict_get {V} (k : string) (d : list (string * V)) : option V :=
  match d with
  | [] => None
  | (k', v) :: d' => if String.eqb k k' then Some v else dict_get k d'
  end.

Definition dquote : string := String (Py.chr 34) EmptyString.

(** ** The source, function by function *)

Definition _NON_UPDATEABLE_REASONS : list (string * option string) :=
  [ ("win_exe", None);
    ("zip", None);
    ("mac_exe", None);
    ("py2exe", None);
    ("win_dir", Some "Auto-update is not supported for unpackaged windows executable; Re-download the latest release");
    ("mac_dir", Some "Auto-update is not supported for unpackaged MacOS executable; Re-download the latest release");
    ("source", Some "You cannot update when running from source code; Use git to pull the latest changes");
    ("unknown", Some "It looks like you installed yt-dlp with a package manager, pip or setup.py; Use that to update") ].

Definition JSON_URL : string := "https://api.github.com/repos/yt-dlp/yt-dlp/releases/latest".

Definition version_labels : list (string * string) :=
  [ ("zip_3", EmptyString);
    ("win_exe_64", ".exe");
    ("py2exe_64", "_min.exe");
    ("win_exe_32", "_x86.exe");
    ("mac_exe_64", "_macos") ].

Definition BUFSIZE : nat := 128 * 1024.

(** [f.readinto(mv)] on an unbuffered file: at most [len(mv)] bytes, at
    least one unless the file is exhausted, written at the start of the
    buffer. Gives the count, the buffer and the unread rest. *)
Definition readinto (offered : nat) (mv rest : list byte) : nat * list byte * list byte :=
  let n := Nat.min (Nat.max 1 offered) (Nat.min (length mv) (length rest)) in
  (n, take n rest ++ drop n mv, drop n rest).

(** The parsed checksum manifest: [dict(ln.split()[::-1] for ln in ...)].
    [dict] wants pairs, any other token count is a [ValueError] ([None]);
    a later line replaces an earlier one with the same key. *)
Fixpoint sums_dict (d : gmap string string) (lines : list string)
  : option (gmap string string) :=
  match lines with
  | [] => Some d
  | ln :: lines' =>
      match rev (Py.split ln) with
      | [k; v] => sums_dict (<[k := v]> d) lines'
      | _ => None
      end
  end.

Section Update.

Context `{Hashlib} (env : Env).

Local Open Scope py_scope.

Definition detect_variant : Variant :=
  if sys_frozen env then
    let mac := String.eqb (sys_platform env) "darwin" in
    if truthy (sys_MEIPASS env) then
      if bool_decide (sys_MEIPASS env = Some (os_path_dirname env (sys_executable env)))
      then if mac then MacDir else WinDir
      else if mac then MacExe else WinExe
    else Py2exe
  else if loader_is_zipimporter env then Zip
  else if String.eqb (os_path_basename env (sys_argv0 env)) "__main__.py" then Source
  else Unknown.

Definition is_non_updateable : option string :=
  default (default None (dict_get "unknown" _NON_UPDATEABLE_REASONS))
          (dict_get (variant_str detect_variant) _NON_UPDATEABLE_REASONS).

(** *** The reporting sink [ydl] and the opener *)

Definition to_screen (msg : string) : M unit := emit (ToScreen msg).
Definition report_warning (msg : string) : M unit := emit (ReportWarning msg).

Definition opener_open_read (url : string) : M (list byte) :=
  emit (UrlOpen url);;
  match urlopen_read env url with
  | Some data => pure data
  | None => raise OSError
  end.

(** *** The file system *)

Definition os_path_exists (path : string) : M bool :=
  fun w => (Next (match fs w !! path with Some _ => true | None => false end), w).

Definition os_remove (path : string) : M unit :=
  fun w =>
    if os_fault env (OsRemove path) then (Raise OSError, w)
    else match fs w !! path with
         | Some _ => (Next tt, {| fs := delete path (fs w); log := FsRemove path :: log w |})
         | None => (Raise OSError, w)
         end.

(** [os.rename]: a file at [dst] would be replaced, as on POSIX (on Windows
    the call raises then); the routine only renames onto paths it has
    cleared before. *)
Definition os_rename (src dst : string) : M unit :=
  fun w =>
    if os_fault env (OsRename src dst) then (Raise OSError, w)
    else match fs w !! src with
         | Some data =>
             (Next tt, {| fs := <[dst := data]> (delete src (fs w));
                          log := FsRename src dst :: log w |})
         | None => (Raise OSError, w)
         end.

(** [with open(path, 'wb') as outf: outf.write(data)]: opening creates or
    truncates the file, a refused write leaves it empty. *)
Definition write_file (path : string) (data : list byte) : M unit :=
  fun w =>
    if os_fault env (OsOpenWrite path) then (Raise OSError, w)
    else
      let w1 := {| fs := <[path := []]> (fs w); log := FsCreate path :: log w |} in
      if os_fault env (OsWrite path) then (Raise OSError, w1)
      else (Next tt, {| fs := <[path := data]> (fs w1);
                        log := FsWrite path data :: log w1 |}).

Definition open_rb (path : string) : M (list byte) :=
  fun w =>
    if os_fault env (OsOpenRead path) then (Raise OSError, w)
    else match fs w !! path with
         | Some data => (Next data, w)
         | None => (Raise OSError, w)
         end.

Definition Popen (cmd : string) : M unit :=
  fun w =>
    if os_fault env (OsPopen cmd) then (Raise OSError, w)
    else (Next tt, {| fs := fs w; log := Spawned cmd :: log w |}).

(** *** Local functions of [run_update] *)

Definition report_error (msg : string) (expected : bool) : M unit :=
  emit (ReportError msg expected).

Definition report_unable (action : string) (expected : bool) : M unit :=
  report_error ("Unable to " +:+ action) expected.

Definition report_permission_error (file : string) : M unit :=
  report_unable ("write to " +:+ file +:+ "; Try running as administrator") true.

Definition report_network_error (action delim : string) : M unit :=
  report_unable
    (action +:+ delim +:+ " Visit  https://github.com/yt-dlp/yt-dlp/releases/latest")
    true.

(** [for n in iter(lambda: f.readinto(mv), 0): h.update(mv[:n])], the
    [k]-th read onwards; the fuel bounds the number of reads. *)
Fixpoint hash_chunks (fuel k : nat) (h : hash_obj) (mv rest : list byte)
  : option hash_obj :=
  match fuel with
  | O => None
  | S fuel' =>
      let '(n, mv', rest') := readinto (read_size env k) mv rest in
      if (n =? 0)%nat then Some h
      else hash_chunks fuel' (S k) (hash_update h (take n mv')) mv' rest'
  end.

(** The digest [calc_sha256sum] computes for a file with this content. *)
Definition digest_stream (content : list byte) : option string :=
  hash_hexdigest <$>
    hash_chunks (S (length content)) 0 sha256_new (replicate BUFSIZE x00) content.

(** Every read but the last takes at least one byte, so the fuel given in
    [digest_stream] is never used up (lemma [hash_chunks_spec]). *)
Definition calc_sha256sum (path : string) : M string :=
  content <- open_rb (os_path_realpath env path);
  match digest_stream content with
  | Some d => pure d
  | None => raise OSError
  end.

Definition version_tuple (version_str : string) : M (list Z) :=
  match mapM Py.int (Py.split_on "." version_str) with
  | Some t => pure t
  | None => raise ValueError
  end.

(** [version_labels[f'{bin_or_exe}_{version}']] *)
Definition version_label (bin_or_exe version : string) : M string :=
  match dict_get (bin_or_exe +:+ "_" +:+ version) version_labels with
  | Some label => pure label
  | None => raise KeyError
  end.

(** [next((i for i in assets if ...), {})]: [None] is the empty dict. *)
Definition get_bin_info (version_info : Release) (bin_or_exe version : string)
  : M (option Asset) :=
  label <- version_label bin_or_exe version;
  pure (find (fun i => String.eqb (name i) ("yt-dlp" +:+ label)) (assets version_info)).

Definition get_sha256sum (version_info : Release) (bin_or_exe version : string)
  : M (option string) :=
  label <- version_label bin_or_exe version;
  let filename := "yt-dlp" +:+ label in
  let urlh :=
    find (fun i => Py.contains "SHA2-256SUMS" (name i)) (assets version_info)
      ≫= browser_download_url in
  match urlh with
  | Some url =>
      if negb (truthy urlh) then pure None
      else
        raw <- opener_open_read url;
        let hash_data := String.string_of_list_byte raw in
        match sums_dict ∅ (Py.splitlines hash_data) with
        | Some d => pure (d !! filename)
        | None => raise ValueError
        end
  | None => pure None
  end.

(** *** [run_update], statement by statement

    Each [try] statement and each guarded [return] of the body is a
    definition of its own, named after what it does and marked with its
    source lines; [run_update] chains them in source order. *)

(** Lines 77-81. *)
Definition fetch_version_info : M Release :=
  try_except
    (emit (UrlOpen JSON_URL);;
     match latest_release env with
     | Some info => pure info
     | None => raise OSError
     end)
    any_Exception
    (report_network_error "obtain version info" "; Please try again later or";;
     ret PyNone).

(** Lines 86-90. *)
Definition check_version (version_info : Release) : M unit :=
  let version_id := tag_name version_info in
  to_screen ("Latest version: " +:+ version_id +:+ ", Current version: " +:+ version env);;
  current <- version_tuple (version env);
  latest <- version_tuple version_id;
  if Py.tuple_ge current latest
  then (to_screen ("yt-dlp is up to date (" +:+ version env +:+ ")");; ret PyNone)
  else pure tt.

(** Lines 92-94. *)
Definition check_updateable : M unit :=
  let err := is_non_updateable in
  if truthy err
  then (report_error (default EmptyString err) true;; ret PyNone)
  else pure tt.

(** Line 99: [compat_realpath(sys.executable if hasattr(sys, 'frozen')
    else sys.argv[0])]. *)
Definition program_path : string :=
  os_path_realpath env (if sys_frozen env then sys_executable env else sys_argv0 env).

(** Lines 100-101. *)
Definition announce (version_info : Release) (filename : string) : M unit :=
  build_hash <- calc_sha256sum filename;
  to_screen ("Current Build Hash " +:+ build_hash);;
  to_screen ("Updating to version " +:+ tag_name version_info +:+ " ...").

(** Lines 125-126 and 132-133. *)
Definition check_writable (path : string) : M unit :=
  if os_access_w env path then pure tt
  else (report_permission_error path;; ret PyNone).

(** Lines 134-138. *)
Definition remove_stale_old (filename : string) : M unit :=
  try_except
    (old_exists <- os_path_exists (filename +:+ ".old");
     if old_exists then os_remove (filename +:+ ".old") else pure tt)
    is_OSError
    (report_unable "remove the old version" false;; ret PyNone).

(** Lines 140-149; gives [arch] and [newcontent]. *)
Definition download_executable (version_info : Release) (variant : string)
  : M (string * list byte) :=
  try_except
    (let arch := Py.prefix_slice 2 (platform_architecture env) in
     info <- get_bin_info version_info variant arch;
     let url := info ≫= browser_download_url in
     match url with
     | Some u =>
         if negb (truthy url) then (report_network_error "fetch updates" ";";; ret PyNone)
         else (newcontent <- opener_open_read u; pure (arch, newcontent))
     | None => (report_network_error "fetch updates" ";";; ret PyNone)
     end)
    is_OSError
    (report_network_error "download latest version" ";";; ret PyNone).

(** Lines 151-155. *)
Definition write_new (filename : string) (newcontent : list byte) : M unit :=
  try_except
    (write_file (filename +:+ ".new") newcontent)
    is_OSError
    (report_permission_error (filename +:+ ".new");; ret PyNone).

(** Lines 157-165. After a mismatch and a successful removal control
    leaves the [if] statement like on the other two branches. *)
Definition verify_new (version_info : Release) (variant arch filename : string)
  : M unit :=
  expected_sum <- get_sha256sum version_info variant arch;
  if negb (truthy expected_sum)
  then report_warning "no hash information found for the release"
  else
    actual <- calc_sha256sum (filename +:+ ".new");
    if negb (bool_decide (Some actual = expected_sum))
    then
      report_network_error "verify the new executable" ";";;
      try_except
        (os_remove (filename +:+ ".new"))
        is_OSError
        (report_unable "remove corrupt download" false;; ret PyNone)
    else pure tt.

(** Lines 167-170. *)
Definition move_current (filename : string) : M unit :=
  try_except
    (os_rename filename (filename +:+ ".old"))
    is_OSError
    (report_unable "move current version" false;; ret PyNone).

(** Lines 171-176. *)
Definition move_new (filename : string) : M unit :=
  try_except
    (os_rename (filename +:+ ".new") filename)
    is_OSError
    (report_unable "overwrite current version" false;;
     os_rename (filename +:+ ".old") filename;;
     ret PyNone).

(** Lines 177-185. The handler does not return. *)
Definition schedule_cleanup (version_info : Release) (filename : string) : M unit :=
  try_except
    (Popen ("ping 127.0.0.1 -n 5 -w 1000 & del /F " +:+ dquote +:+ filename
              +:+ ".old" +:+ dquote);;
     to_screen ("Updated yt-dlp to version " +:+ tag_name version_info);;
     ret PyTrue)
    is_OSError
    (report_unable "delete the old version" false).

(** Lines 130-185: the branch [variant in ('win_exe', 'py2exe')]. *)
Definition swap_executable (version_info : Release) (variant filename : string)
  : M unit :=
  check_writable (os_path_dirname env filename);;
  remove_stale_old filename;;
  got <- download_executable version_info variant;
  write_new filename got.2;;
  verify_new version_info variant got.1 filename;;
  move_current filename;;
  move_new filename;;
  schedule_cleanup version_info filename.

(** Lines 189-197. *)
Definition download_package (version_info : Release) (variant pack_type : string)
  : M (list byte) :=
  try_except
    (info <- get_bin_info version_info variant pack_type;
     let url := info ≫= browser_download_url in
     match url with
     | Some u =>
         if negb (truthy url) then (report_network_error "fetch updates" ";";; ret PyNone)
         else opener_open_read u
     | None => (report_network_error "fetch updates" ";";; ret PyNone)
     end)
    is_OSError
    (report_network_error "download the latest version" ";";; ret PyNone).

(** Lines 199-203. *)
Definition verify_package (version_info : Release) (variant pack_type : string)
           (newcontent : list byte) : M unit :=
  expected_sum <- get_sha256sum version_info variant pack_type;
  if negb (truthy expected_sum)
  then report_warning "no hash information found for the release"
  else if negb (bool_decide (Some (digest_one_shot newcontent) = expected_sum))
       then (report_network_error "verify the new package" ";";; ret PyNone)
       else pure tt.

(** Lines 205-209. *)
Definition write_package (filename : string) (newcontent : list byte) : M unit :=
  try_except
    (write_file filename newcontent)
    is_OSError
    (report_unable "overwrite current version" false;; ret PyNone).

(** Lines 187-212: the branch [variant in ('zip', 'mac_exe')]. *)
Definition overwrite_package (version_info : Release) (variant filename : string)
  : M unit :=
  let pack_type := if String.eqb variant "zip" then "3" else "64" in
  newcontent <- download_package version_info variant pack_type;
  verify_package version_info variant pack_type newcontent;;
  write_package filename newcontent;;
  to_screen ("Updated yt-dlp to version " +:+ tag_name version_info
               +:+ "; Restart yt-dlp to use the new version");;
  ret PyNone.

(** Lines 129-214. *)
Definition install (version_info : Release) (filename : string) : M unit :=
  let variant := variant_str detect_variant in
  (if Py.in_tuple variant ["win_exe"; "py2exe"]
   then swap_executable version_info variant filename
   else if Py.in_tuple variant ["zip"; "mac_exe"]
        then overwrite_package version_info variant filename
        else pure tt);;
  raise AssertionError.

Definition run_update : M unit :=
  version_info <- fetch_version_info;
  check_version version_info;;
  check_updateable;;
  let filename := program_path in
  announce version_info filename;;
  check_writable filename;;
  install version_info filename.

End Update.

(** The routine started on a file system, with an empty log. *)
Definition run `{Hashlib} (env : Env) (files : gmap string (list byte))
  : ctl unit * World :=
  run_update env {| fs := files; log := [] |}.

(** ** Observations on a run *)

Definition is_report_error (e : event) : bool :=
  match e with ReportError _ _ => true | _ => false end.

(** The error messages handed to [ydl.report_error], in order. *)
Definition errors (w : World) : list event := List.filter is_report_error (history w).

Definition is_fs_event (e : event) : bool :=
  match e with
  | FsCreate _ | FsWrite _ _ | FsRemove _ | FsRename _ _ => true
  | _ => false
  end.

(** The file-system calls that took effect, in order. *)
Definition fs_events (w : World) : list event := List.filter is_fs_event (history w).

Definition is_url_open (e : event) : bool :=
  match e with UrlOpen _ => true | _ => false end.

(** The URLs requested, in order. *)
Definition requests (w : World) : list event := List.filter is_url_open (history w).

(** Write the download to [.new], move the program aside, move [.new] in. *)
Definition swap_sequence (f : string) (data : list byte) : list event :=
  [ FsCreate (f +:+ ".new"); FsWrite (f +:+ ".new") data;
    FsRename f (f +:+ ".old"); FsRename (f +:+ ".new") f ].



(** The command line handed to [Popen] after a swap. *)
Definition cleanup_cmd (f : string) : string :=
  "ping 127.0.0.1 -n 5 -w 1000 & del /F " +:+ dquote +:+ f +:+ ".old" +:+ dquote.

(** The rollback was refused: the program file is gone, its content sits
    in the [.old] sibling and [OSError] leaves the routine. *)
Definition rollback_refused `{Hashlib} (env : Env) (old : list byte)
           (r : ctl unit) (w' : World) : Prop :=
  let f := program_path env in
  r = Raise OSError
  /\ os_fault env (OsRename (f +:+ ".old") f) = true
  /\ fs w' !! f = None
  /\ fs w' !! (f +:+ ".old") = Some old
  /\ exists rest,
       log w' = ReportError "Unable to overwrite current version" false
                :: FsRename f (f +:+ ".old") :: rest.

(** The key [get_bin_info] and [get_sha256sum] look up in [version_labels]:
    the variant with [arch] in the swap branch, with [pack_type] otherwise. *)
Definition label_key (env : Env) : string :=
  let variant := variant_str (detect_variant env) in
  variant +:+ "_" +:+
    (if Py.in_tuple variant ["win_exe"; "py2exe"]
     then Py.prefix_slice 2 (platform_architecture env)
     else if String.eqb variant "zip" then "3" else "64").


(** A version string made of non-empty runs of decimal digits between
    dots. *)
Definition all_digits (s : string) : bool :=
  match s with
  | EmptyString => false
  | _ => forallb Py.isdigit (Py.to_list s)
  end.

Definition well_formed_version (s : string) : bool :=
  forallb all_digits (Py.split_on "." s).

(** The tuple [version_tuple] makes of a version string (the empty tuple
    where [int] rejects a field and [version_tuple] raises). *)
Definition parsed (s : string) : list Z :=
  default [] (mapM Py.int (Py.split_on "." s)).

(** The run gets as far as looking the asset up: the release was fetched
    and is newer, the variant is updatable, the running file can be read
    and written, and in the swap branch its directory is writable and a
    stale [.old] file, if any, can be removed. *)
Record reaches_asset_lookup `{Hashlib} (env : Env) (files : gmap string (list byte))
       (info : Release) : Prop := {
  release_fetched : latest_release env = Some info;
  release_newer : exists current latest,
    mapM Py.int (Py.split_on "." (version env)) = Some current
    /\ mapM Py.int (Py.split_on "." (tag_name info)) = Some latest
    /\ Py.tuple_ge current latest = false;
  variant_updateable : truthy (is_non_updateable env) = false;
  program_read :
    os_fault env (OsOpenRead (os_path_realpath env (program_path env))) = false
    /\ is_Some (files !! os_path_realpath env (program_path env));
  program_writable : os_access_w env (program_path env) = true;
  swap_prepared :
    Py.in_tuple (variant_str (detect_variant env)) ["win_exe"; "py2exe"] = true ->
    os_access_w env (os_path_dirname env (program_path env)) = true
    /\ os_fault env (OsRemove (program_path env +:+ ".old")) = false;
}.

Definition fetch_updates_error : event :=
  ReportError
    "Unable to fetch updates; Visit  https://github.com/yt-dlp/yt-dlp/releases/latest"
    true.


(** Where the program file stands after a run that found it in place. *)
Definition live_path_outcome `{Hashlib} (env : Env) (old : list byte)
           (r : ctl unit) (w' : World) : Prop :=
  let f := program_path env in
  (is_Some (fs w' !! f) \/ rollback_refused env old r w')
  /\ (Py.in_tuple (variant_str (detect_variant env)) ["win_exe"; "py2exe"] = true ->
      os_fault env (OsRename (f +:+ ".new") f) = true ->
      fs w' !! f = Some old \/ rollback_refused env old r w').


(** *** The spec's sentences, as properties of one run *)

(** "The routine never leaves the live executable path deleted." *)
Definition live_path_kept `{Hashlib} (env : Env) (files : gmap string (list byte)) : Prop :=
  is_Some (files !! program_path env) ->
  is_Some (fs (run env files).2 !! program_path env).



(** "Absence of the asset is handled not as an error." *)
Definition absence_not_an_error `{Hashlib} (env : Env)
           (files : gmap string (list byte)) : Prop :=
  errors (run env files).2 = [].

(** "An asset is selected as checksum manifest iff its name is exactly
    SHA2-256SUMS": the selection test of [get_sha256sum], and the exact
    test. *)
Definition selects_as_manifest (a : Asset) : bool :=
  Py.contains "SHA2-256SUMS" (name a).

Definition named_exactly_manifest (a : Asset) : bool :=
  String.eqb (name a) "SHA2-256SUMS".

(** *** Further observations *)

(** The variants that can replace themselves. *)
Definition updateable_variant (v : Variant) : Prop :=
  v = WinExe \/ v = Py2exe \/ v = Zip \/ v = MacExe.

(** The pairs of variant and architecture (or package type) for which
    [version_labels] has a suffix. *)
Definition labelled (v : Variant) (arch : string) : Prop :=
  (v = Zip /\ arch = "3")
  \/ (v = WinExe /\ (arch = "64" \/ arch = "32"))
  \/ (v = Py2exe /\ arch = "64")
  \/ (v = MacExe /\ arch = "64").


(** A manifest line whose second token is this file name. *)
Definition names_file (f ln : string) : Prop := exists dg, Py.split ln = [dg; f].



(** [u] is the download URL of an asset of the release. *)
Definition asset_url (env : Env) (u : string) : Prop :=
  exists info a,
    latest_release env = Some info /\ a ∈ assets info /\ browser_download_url a = Some u.

(** What a run requests: the release description, then at most two
    download URLs of its assets. *)
Definition requests_outcome (env : Env) (w' : World) : Prop :=
  exists us,
    requests w' = UrlOpen JSON_URL :: (UrlOpen <$> us)
    /\ (length us <= 2)%nat
    /\ Forall (asset_url env) us.





(** What a run that returned [None] without reporting an error has done:
    nothing, the program being up to date, or the package was written over
    the program file. *)
Definition quiet_outcome `{Hashlib} (env : Env) (files : gmap string (list byte))
           (w' : World) : Prop :=
  let f := program_path env in
  (fs w' = files
   /\ exists rest,
        log w' = ToScreen ("yt-dlp is up to date (" +:+ version env +:+ ")") :: rest)
  \/ (exists info data rest,
        latest_release env = Some info
        /\ fs w' !! f = Some data
        /\ log w' = ToScreen ("Updated yt-dlp to version " +:+ tag_name info
                                +:+ "; Restart yt-dlp to use the new version")
                    :: FsWrite f data :: rest).

Definition version_info_error : event :=
  ReportError
    ("Unable to obtain version info; Please try again later or"
       +:+ " Visit  https://github.com/yt-dlp/yt-dlp/releases/latest")
    true.

Definition latest_version_line (env : Env) (info : Release) : event :=
  ToScreen ("Latest version: " +:+ tag_name info +:+ ", Current version: " +:+ version env).

(** The release offers the asset of this installation, its download
    succeeds, and the checksum manifest, if the release names one, can be
    read and does not give another digest for the asset. *)
Record download_ready `{Hashlib} (env : Env) (info : Release)
       (ready_label ready_url : string) (c : list byte) : Prop := {
  label_found : dict_get (label_key env) version_labels = Some ready_label;
  asset_found :
    find (fun i => String.eqb (name i) ("yt-dlp" +:+ ready_label)) (assets info)
      ≫= browser_download_url = Some ready_url;
  url_given : truthy (Some ready_url) = true;
  download_served : urlopen_read env ready_url = Some c;
  manifest_agrees : forall su,
    find (fun i => Py.contains "SHA2-256SUMS" (name i)) (assets info)
      ≫= browser_download_url = Some su ->
    truthy (Some su) = true ->
    exists raw g,
      urlopen_read env su = Some raw
      /\ sums_dict ∅ (Py.splitlines (String.string_of_list_byte raw)) = Some g
      /\ (truthy (g !! ("yt-dlp" +:+ ready_label)) = true ->
          g !! ("yt-dlp" +:+ ready_label) = Some (digest_one_shot c));
}.

(** No file operation of the swap is refused. *)
Record swap_unhindered `{Hashlib} (env : Env) : Prop := {
  new_creatable : os_fault env (OsOpenWrite (program_path env +:+ ".new")) = false;
  new_writable : os_fault env (OsWrite (program_path env +:+ ".new")) = false;
  new_is_real :
    os_path_realpath env (program_path env +:+ ".new") = program_path env +:+ ".new";
  new_readable_back : os_fault env (OsOpenRead (program_path env +:+ ".new")) = false;
  move_aside_allowed :
    os_fault env (OsRename (program_path env) (program_path env +:+ ".old")) = false;
  move_in_allowed :
    os_fault env (OsRename (program_path env +:+ ".new") (program_path env)) = false;
  cleanup_allowed : os_fault env (OsPopen (cleanup_cmd (program_path env))) = false;
}.

(** ** Example surroundings *)

Module Examples.

Definition nl : string := String (Py.chr 10) EmptyString.

Definition bytes (s : string) : list byte := String.list_byte_of_string s.

Definition is_sep (c : ascii) : bool :=
  Ascii.eqb c (Py.chr 92) || Ascii.eqb c (Py.chr 47).

(** What stands before and after the last separator of a path. *)
Fixpoint split_last (s : string) : option (string * string) :=
  match s with
  | EmptyString => None
  | String c s' =>
      match split_last s' with
      | Some (d, b) => Some (String c d, b)
      | None => if is_sep c then Some (EmptyString, s') else None
      end
  end.

Definition dirname (s : string) : string :=
  match split_last s with Some (d, _) => d | None => EmptyString end.

Definition basename (s : string) : string :=
  match split_last s with Some (_, b) => b | None => s end.

Definition no_faults : os_call -> bool := fun _ => false.

Definition fault_on (calls : list os_call) : os_call -> bool :=
  fun c => bool_decide (c ∈ calls).

Definition serve (table : list (string * string)) : string -> option (list byte) :=
  fun url => bytes <$> dict_get url table.

Definition asset (n url : string) : Asset :=
  {| name := n; browser_download_url := Some url |}.

Definition release (tag : string) (l : list Asset) : option Release :=
  Some {| tag_name := tag; assets := l |}.

(** A frozen PyInstaller one-file build ([frozen], [_MEIPASS] elsewhere),
    a py2exe build ([frozen], no [_MEIPASS]) or a zip archive. *)
Definition make_env (frozen : bool) (platform : string) (meipass : option string)
           (program arch : string) (rel : option Release)
           (net : string -> option (list byte)) (faults : os_call -> bool) : Env :=
  {| version := "2023.01.01";
     sys_frozen := frozen;
     sys_platform := platform;
     sys_MEIPASS := meipass;
     sys_executable := program;
     sys_argv0 := program;
     loader_is_zipimporter := negb frozen;
     os_path_dirname := dirname;
     os_path_basename := basename;
     os_path_realpath := fun p => p;
     platform_architecture := arch;
     latest_release := rel;
     urlopen_read := net;
     os_access_w := fun _ => true;
     os_fault := faults;
     read_size := fun k => (3 + k)%nat |}.

Definition exe : string := "C:\tools\yt-dlp.exe".
Definition exe_url : string := "https://example.org/dl/yt-dlp.exe".
Definition sums_url : string := "https://example.org/dl/SHA2-256SUMS".

Definition win_release : option Release :=
  release "2023.06.01" [asset "yt-dlp.exe" exe_url; asset "SHA2-256SUMS" sums_url].

(** The digest of the nine bytes [new build], as [sha256sum] prints it. *)
Definition good_sums : string :=
  "9893f46b04f2b89047dac4860978f401114b41f20aedf9abac1a7bb218496321  yt-dlp.exe" +:+ nl.

(** The digest of [abc]: not the digest of the download. *)
Definition bad_sums : string :=
  "ba7816bf8f01cfea414140de5dae2223b00361a396177a9cb410ff61f20015ad  yt-dlp.exe" +:+ nl.

Definition win_env (sums : string) (faults : os_call -> bool) : Env :=
  make_env true "win32" (Some "C:\Temp\_MEI42") exe "64bit" win_release
           (serve [(exe_url, "new build"); (sums_url, sums)]) faults.

Definition win_files : gmap string (list byte) := {[ exe := bytes "old build" ]}.

(** Both the second rename and the rename back are refused. *)
Definition both_renames_refused : os_call -> bool :=
  fault_on [OsRename (exe +:+ ".new") exe; OsRename (exe +:+ ".old") exe].

Definition second_rename_refused : os_call -> bool :=
  fault_on [OsRename (exe +:+ ".new") exe].

(** Only the release and the executable can be fetched, not the checksum
    manifest. *)
Definition sums_unreachable_env : Env :=
  make_env true "win32" (Some "C:\Temp\_MEI42") exe "64bit" win_release
           (serve [(exe_url, "new build")]) no_faults.

(** The shell command of the cleanup cannot be started. *)
Definition popen_refused : os_call -> bool :=
  fault_on [OsPopen (cleanup_cmd exe)].


(** The release carries the tag of the running version. *)
Definition current_env : Env :=
  make_env true "win32" (Some "C:\Temp\_MEI42") exe "64bit"
           (release "2023.01.01" [asset "yt-dlp.exe" exe_url])
           (serve [(exe_url, "new build")]) no_faults.

(** A 32-bit py2exe build. *)
Definition py2exe32_env : Env :=
  make_env true "win32" None exe "32bit" win_release
           (serve [(exe_url, "new build"); (sums_url, good_sums)]) no_faults.

Definition mac : string := "/usr/local/bin/yt-dlp_macos".
Definition mac_url : string := "https://example.org/dl/yt-dlp_macos".

Definition mac_sums : string :=
  "9893f46b04f2b89047dac4860978f401114b41f20aedf9abac1a7bb218496321  yt-dlp_macos" +:+ nl.

Definition mac_env : Env :=
  make_env true "darwin" (Some "/tmp/_MEI42") mac "64bit"
           (release "2023.06.01" [asset "yt-dlp_macos" mac_url; asset "SHA2-256SUMS" sums_url])
           (serve [(mac_url, "new build"); (sums_url, mac_sums)]) no_faults.

Definition mac_files : gmap string (list byte) := {[ mac := bytes "old build" ]}.

Definition zipfile : string := "/usr/local/bin/yt-dlp".
Definition zip_url : string := "https://example.org/dl/yt-dlp".
Definition other_url : string := "https://example.org/dl/SUMS".

(** The digest of [abc] under the name of the zip asset. *)
Definition stray_sums : string :=
  "ba7816bf8f01cfea414140de5dae2223b00361a396177a9cb410ff61f20015ad  yt-dlp" +:+ nl.

Definition zip_sums : string :=
  "9893f46b04f2b89047dac4860978f401114b41f20aedf9abac1a7bb218496321  yt-dlp" +:+ nl.

Definition zip_files : gmap string (list byte) := {[ zipfile := bytes "old build" ]}.

(** A release without the asset the zip variant asks for. *)
Definition no_asset_env : Env :=
  make_env false "linux" None zipfile "64bit"
           (release "2023.06.01" [asset "yt-dlp.exe" exe_url; asset "SHA2-256SUMS" sums_url])
           (serve [(exe_url, "new build"); (sums_url, good_sums)]) no_faults.

(** A release that lists an asset named [SUMS] before the checksum
    manifest. *)
Definition sums_first_assets : list Asset :=
  [asset "yt-dlp" zip_url; asset "SUMS" other_url; asset "SHA2-256SUMS" sums_url].

Definition sums_first_env : Env :=
  make_env false "linux" None zipfile "64bit"
           (release "2023.06.01" sums_first_assets)
           (serve [(zip_url, "new build"); (other_url, stray_sums); (sums_url, zip_sums)])
           no_faults.

End Examples.

(** ** Further surroundings *)

Module Scenarios.

(** No answer from the release server. *)
Definition offline_env : Env :=
  Examples.make_env true "win32" (Some "C:\Temp\_MEI42") Examples.exe "64bit" None
                    (Examples.serve []) Examples.no_faults.

(** A PyInstaller one-folder build: [_MEIPASS] is the folder of the
    executable. *)
Definition onedir_env : Env :=
  Examples.make_env true "win32" (Some "C:\tools") Examples.exe "64bit"
                    Examples.win_release
                    (Examples.serve [(Examples.exe_url, "new build")]) Examples.no_faults.

Definition win_good : Env := Examples.win_env Examples.good_sums Examples.no_faults.

(** The Windows build where nothing may be written. *)
Definition readonly_env : Env :=
  {| version := version win_good;
     sys_frozen := sys_frozen win_good;
     sys_platform := sys_platform win_good;
     sys_MEIPASS := sys_MEIPASS win_good;
     sys_executable := sys_executable win_good;
     sys_argv0 := sys_argv0 win_good;
     loader_is_zipimporter := loader_is_zipimporter win_good;
     os_path_dirname := os_path_dirname win_good;
     os_path_basename := os_path_basename win_good;
     os_path_realpath := os_path_realpath win_good;
     platform_architecture := platform_architecture win_good;
     latest_release := latest_release win_good;
     urlopen_read := urlopen_read win_good;
     os_access_w := fun _ => false;
     os_fault := os_fault win_good;
     read_size := read_size win_good |}.

(** A manifest that names the zip asset twice. *)
Definition twice_named : list string :=
  ["aa  yt-dlp"; "bb  yt-dlp.exe"; "cc  yt-dlp"].

Definition twice_named_dict : gmap string string :=
  <["yt-dlp" := "cc"]> (<["yt-dlp.exe" := "bb"]> (<["yt-dlp" := "aa"]> ∅)).

(** A file next to the program. *)
Definition notes : string := "C:\tools\notes.txt".

Definition win_release_info : Release :=
  {| tag_name := "2023.06.01";
     assets := [Examples.asset "yt-dlp.exe" Examples.exe_url;
                Examples.asset "SHA2-256SUMS" Examples.sums_url] |}.

Definition mac_release_info : Release :=
  {| tag_name := "2023.06.01";
     assets := [Examples.asset "yt-dlp_macos" Examples.mac_url;
                Examples.asset "SHA2-256SUMS" Examples.sums_url] |}.


End Scenarios.

(** ** The digest loop *)

Section Digest.

Context `{Hashlib} (env : Env).

(** The slice [mv[:n]] handed to [h.update] is exactly the bytes just read,
    whatever the buffer held before. *)
Lemma readinto_slice offered mv rest :
  let '(n, mv', rest') := readinto offered mv rest in
  take n mv' = take n rest /\ rest' = drop n rest /\ length mv' = length mv
  /\ (n <= length rest)%nat /\ (rest <> [] -> mv <> [] -> 0 < n)%nat.
Proof.
  unfold readinto.
  set (n := Nat.min (Nat.max 1 offered) (Nat.min (length mv) (length rest))).
  assert (Hn : (n <= length rest)%nat) by (subst n; lia).
  assert (Hm : (n <= length mv)%nat) by (subst n; lia).
  repeat split.
  - rewrite take_app_le by (rewrite length_take; lia).
    rewrite take_take. f_equal. lia.
  - rewrite length_app, length_take, length_drop. lia.
  - exact Hn.
  - intros Hr Hmv. destruct rest; [done|]. destruct mv; [done|].
    subst n. simpl length. lia.
Qed.

(** With fuel beyond the number of unread bytes the loop ends, having fed
    the hash object the unread bytes in order. *)
Lemma hash_chunks_spec fuel k h (mv rest : list byte) :
  mv <> [] -> (length rest < fuel)%nat ->
  hash_chunks env fuel k h mv rest = Some (hash_update h rest).
Proof.
  revert k h mv rest.
  induction fuel as [|fuel IH]; intros k h mv rest Hmv Hfuel; [lia|].
  cbn [hash_chunks].
  pose proof (readinto_slice (read_size env k) mv rest) as Hs.
  destruct (readinto (read_size env k) mv rest) as [[n mv'] rest'].
  destruct Hs as (Htake & -> & Hlen & Hle & Hpos).
  destruct (Nat.eqb_spec n 0) as [->|Hn0].
  - destruct rest as [|b rest].
    + by rewrite hash_update_nil.
    + specialize (Hpos ltac:(done) Hmv). lia.
  - rewrite Htake, IH.
    + by rewrite hash_update_app, take_drop.
    + intros ->. destruct mv; [done|]. simpl in Hlen. lia.
    + rewrite length_drop. lia.
Qed.

Lemma BUFSIZE_pos : (0 < BUFSIZE)%nat.
Proof. unfold BUFSIZE. lia. Qed.

Lemma digest_stream_spec (content : list byte) :
  digest_stream env content = Some (hash_hexdigest (sha256_of content)).
Proof.
  unfold digest_stream, sha256_of.
  rewrite hash_chunks_spec; [done| |lia].
  intros Hnil. apply (f_equal length) in Hnil.
  rewrite length_replicate in Hnil. pose proof BUFSIZE_pos. simpl in Hnil. lia.
Qed.

End Digest.

(** ** Running the routine symbolically *)

Lemma append_ne_self (s t : string) : t <> EmptyString -> s +:+ t <> s.
Proof.
  intros Ht. induction s as [|c s IH]; simpl.
  - exact Ht.
  - intros Heq. injection Heq as Heq. by apply IH.
Qed.

Lemma append_inj_l (s t1 t2 : string) : s +:+ t1 = s +:+ t2 -> t1 = t2.
Proof.
  induction s as [|c s IH]; simpl; [done|].
  intros Heq. injection Heq as Heq. by apply IH.
Qed.

(** The program file and its two siblings are three different paths. *)
Lemma path_facts (f : string) :
  f +:+ ".old" <> f /\ f +:+ ".new" <> f /\ f +:+ ".new" <> f +:+ ".old".
Proof.
  repeat split.
  - by apply append_ne_self.
  - by apply append_ne_self.
  - intros Heq. by apply append_inj_l in Heq.
Qed.

Section Files.

Implicit Types (m : gmap string (list byte)) (k : string) (v : list byte).

Lemma fs_insert_eq m k v : <[k := v]> m !! k = Some v.
Proof. apply lookup_insert_eq. Qed.

Lemma fs_insert_ne m k k' v : k <> k' -> <[k := v]> m !! k' = m !! k'.
Proof. apply lookup_insert_ne. Qed.

Lemma fs_delete_eq m k : delete k m !! k = None.
Proof. apply lookup_delete_eq. Qed.

Lemma fs_delete_ne m k k' : k <> k' -> delete k m !! k' = m !! k'.
Proof. apply lookup_delete_ne. Qed.

End Files.



Lemma tuples_disjoint (v : Variant) :
  Py.in_tuple (variant_str v) ["win_exe"; "py2exe"] = true ->
  Py.in_tuple (variant_str v) ["zip"; "mac_exe"] = true -> False.
Proof. destruct v; cbv; congruence. Qed.

Section Paths.

Context `{Hashlib} (env : Env).

Lemma truthy_non_updateable :
  truthy (is_non_updateable env)
  = match detect_variant env with
    | WinExe | Zip | MacExe | Py2exe => false
    | _ => true
    end.
Proof. unfold is_non_updateable. by destruct (detect_variant env). Qed.

(** [calc_sha256sum] on a readable file is the one-shot digest of its
    content. *)
Lemma calc_sha256sum_eq path w :
  calc_sha256sum env path w
  = if os_fault env (OsOpenRead (os_path_realpath env path)) then (Raise OSError, w)
    else match fs w !! os_path_realpath env path with
         | Some data => (Next (hash_hexdigest (sha256_of data)), w)
         | None => (Raise OSError, w)
         end.
Proof.
  unfold calc_sha256sum, bind, open_rb.
  destruct (os_fault env _); [done|].
  destruct (fs w !! _) as [data|]; [|done].
  by rewrite digest_stream_spec.
Qed.

(** An updatable variant is named in one of the two tuples. *)
Lemma no_variant_left :
  truthy (is_non_updateable env) = false ->
  Py.in_tuple (variant_str (detect_variant env)) ["win_exe"; "py2exe"] = false ->
  Py.in_tuple (variant_str (detect_variant env)) ["zip"; "mac_exe"] = false ->
  False.
Proof. rewrite truthy_non_updateable. destruct (detect_variant env); cbv; congruence. Qed.

End Paths.

(** The value the next reduction step waits for: the innermost scrutinee
    on the spine of the term. *)
Ltac head_scrut t :=
  lazymatch t with
  | match ?x with _ => _ end => head_scrut x
  | ?f _ => head_scrut_app f t
  | _ => t
  end
with head_scrut_app f t :=
  lazymatch f with
  | match ?x with _ => _ end => head_scrut x
  | ?g _ => head_scrut_app g t
  | _ => t
  end.

Ltac head_of t := lazymatch t with ?f _ => head_of f | _ => t end.

Ltac reduce_in H :=
  cbv beta iota zeta delta
    [bind try_except pure ret raise emit to_screen report_warning report_error
     report_unable report_permission_error report_network_error os_path_exists
     os_remove os_rename write_file Popen get_bin_info get_sha256sum version_label
     version_tuple opener_open_read is_OSError any_Exception fs log negb fst snd] in H.

Ltac known_facts H :=
  match goal with
  | E : detect_variant _ = _ |- _ => rewrite E in H
  | E : Py.prefix_slice _ _ = _ |- _ => rewrite E in H
  end.

(** Statements are opened only when control reaches them. *)
Ltac unfold_block h H :=
  lazymatch h with
  | @run_update => unfold run_update in H
  | @fetch_version_info => unfold fetch_version_info in H
  | @check_version => unfold check_version in H
  | @check_updateable => unfold check_updateable in H
  | @announce => unfold announce in H
  | @check_writable => unfold check_writable in H
  | @install => unfold install in H
  | @swap_executable => unfold swap_executable in H
  | @remove_stale_old => unfold remove_stale_old in H
  | @download_executable => unfold download_executable in H
  | @write_new => unfold write_new in H
  | @verify_new => unfold verify_new in H
  | @move_current => unfold move_current in H
  | @move_new => unfold move_new in H
  | @schedule_cleanup => unfold schedule_cleanup in H
  | @overwrite_package => unfold overwrite_package in H
  | @download_package => unfold download_package in H
  | @verify_package => unfold verify_package in H
  | @write_package => unfold write_package in H
  end.

(** A lookup in a file system built by inserts and deletes, one layer at
    a time. *)
Ltac lookup_step x H :=
  lazymatch x with
  | <[?k' := ?v]> ?m !! ?k =>
      first [ rewrite (fs_insert_eq m k v) in H
            | rewrite (fs_insert_ne m k' k v) in H by congruence ]
  | delete ?k' ?m !! ?k =>
      first [ rewrite (fs_delete_eq m k) in H
            | rewrite (fs_delete_ne m k' k) in H by congruence ]
  end.

Ltac map_goal :=
  repeat
    match goal with
    | |- context [<[?k' := ?v]> ?m !! ?k] =>
        first [ rewrite (fs_insert_eq m k v)
              | rewrite (fs_insert_ne m k' k v) by congruence ]
    | |- context [delete ?k' ?m !! ?k] =>
        first [ rewrite (fs_delete_eq m k)
              | rewrite (fs_delete_ne m k' k) by congruence ]
    end.

Ltac rewrite_known x H :=
  match goal with
  | E : x = _ |- _ => rewrite E in H
  end.

Ltac eval_closed x H :=
  let v := eval cbv in x in
  lazymatch v with
  | Some _ => change x with v in H
  | None => change x with v in H
  | true => change x with v in H
  | false => change x with v in H
  | _ => first [ rewrite_known x H | destruct x eqn:? ]
  end.

(** A conditional inside the value waited for is decided first. *)
Ltac inner_if x H :=
  lazymatch x with
  | context [if ?b then _ else _] => first [ rewrite_known b H | destruct b eqn:? ]
  end.

(** One step: decide the value the run waits for, from a hypothesis when
    one fixes it, by cases otherwise. *)
Ltac step H :=
  lazymatch type of H with
  | ?t = _ =>
      let x := head_scrut t in
      lazymatch x with
      | (_, _) => fail "finished"
      | calc_sha256sum _ _ _ => rewrite calc_sha256sum_eq in H
      | truthy None => change (truthy None) with false in H
      | dict_get _ _ => first [ known_facts H | inner_if x H | eval_closed x H ]
      | Py.in_tuple _ _ => first [ known_facts H | eval_closed x H ]
      | String.eqb _ _ => first [ known_facts H | eval_closed x H ]
      | _ !! _ =>
          first [ lookup_step x H | rewrite_known x H | destruct x eqn:? ]
      | _ =>
          let h := head_of x in
          first [ unfold_block h H | rewrite_known x H | destruct x eqn:? ]
      end;
      reduce_in H
  end.

Ltac exec H := unfold run in H; repeat (step H).

(** At the end of a path: the result and the final world. *)
Ltac finish H :=
  let Hr := fresh "Hr" in
  let Hw := fresh "Hw" in
  apply pair_equal_spec in H as [Hr Hw];
  try discriminate Hr;
  try (injection Hr as Hr);
  subst.

(** ** Version strings *)

Section Versions.

Lemma of_to_list (s : string) : Py.of_list (Py.to_list s) = s.
Proof. induction s as [|c s IH]; simpl; by rewrite ?IH. Qed.

Lemma to_of_list (l : list ascii) : Py.to_list (Py.of_list l) = l.
Proof. induction l as [|c l IH]; simpl; by rewrite ?IH. Qed.

Lemma digit_facts (c : ascii) :
  Py.isdigit c = true ->
  Py.isspace c = false /\ Ascii.eqb c (Py.chr 45) = false /\ Ascii.eqb c (Py.chr 43) = false.
Proof.
  destruct c as [[] [] [] [] [] [] [] []]; vm_compute; intros Hd; try discriminate Hd;
    repeat split.
Qed.

Lemma lstrip_digit_head (l : list ascii) :
  match l with c :: _ => Py.isdigit c = true | [] => True end ->
  Py.lstrip (Py.of_list l) = Py.of_list l.
Proof.
  destruct l as [|c l]; [done|]. intros Hc.
  simpl. by destruct (digit_facts c Hc) as (-> & _).
Qed.

Lemma rev_digit_head (l : list ascii) :
  forallb Py.isdigit l = true ->
  match rev l with c :: _ => Py.isdigit c = true | [] => True end.
Proof.
  intros Hall. assert (Hrev : forallb Py.isdigit (rev l) = true).
  { rewrite forallb_forall in *. intros c Hc. apply Hall. by apply in_rev. }
  destruct (rev l) as [|c l']; [done|]. simpl in Hrev. by destruct (Py.isdigit c).
Qed.

Lemma strip_digits (s : string) :
  forallb Py.isdigit (Py.to_list s) = true -> Py.strip s = s.
Proof.
  intros Hall. unfold Py.strip.
  rewrite <- (of_to_list s) at 1.
  assert (Hhead : match Py.to_list s with c :: _ => Py.isdigit c = true | [] => True end).
  { destruct (Py.to_list s) as [|c l]; [done|]. simpl in Hall. by destruct (Py.isdigit c). }
  rewrite (lstrip_digit_head (Py.to_list s)) by exact Hhead.
  rewrite to_of_list.
  rewrite lstrip_digit_head by (by apply rev_digit_head).
  by rewrite to_of_list, rev_involutive, of_to_list.
Qed.

Lemma digits_go_total (s : string) (seen : bool) (acc : Z) :
  forallb Py.isdigit (Py.to_list s) = true ->
  (s = EmptyString -> seen = true) ->
  is_Some (Py.digits_go seen acc s).
Proof.
  revert seen acc. induction s as [|c s IH]; intros seen acc Hall Hne; simpl.
  - rewrite Hne by done. by eexists.
  - simpl in Hall. apply andb_prop in Hall as [-> Hall]. by apply IH.
Qed.

Lemma int_all_digits (s : string) : all_digits s = true -> is_Some (Py.int s).
Proof.
  unfold all_digits, Py.int. destruct s as [|c s]; [done|]. intros Hall.
  rewrite strip_digits by done.
  pose proof Hall as Hc. simpl in Hc. apply andb_prop in Hc as [Hc _].
  destruct (digit_facts c Hc) as (_ & -> & ->).
  by apply digits_go_total.
Qed.

(** [int] accepts every field of a well-formed version string. *)
Lemma well_formed_version_parses (s : string) :
  well_formed_version s = true -> is_Some (mapM Py.int (Py.split_on "." s)).
Proof.
  unfold well_formed_version. generalize (Py.split_on "." s) as fields.
  induction fields as [|x fields IH]; intros Hall; [by eexists|].
  simpl in Hall. apply andb_prop in Hall as [Hx Hall].
  destruct (int_all_digits x Hx) as [z Hz]. destruct (IH Hall) as [t Ht].
  exists (z :: t). simpl. rewrite Hz. simpl. rewrite Ht. reflexivity.
Qed.

End Versions.

Lemma find_no_name (target : string) (l : list Asset) :
  (forall a, a ∈ l -> name a <> target) ->
  find (fun i => String.eqb (name i) target) l = None.
Proof.
  induction l as [|a l IH]; intros Hall; [done|].
  simpl. destruct (String.eqb_spec (name a) target) as [Heq|_].
  - exfalso. apply (Hall a); [left|done].
  - apply IH. intros b Hb. apply Hall. by right.
Qed.

(** A run is its result paired with its final world. *)
Lemma run_result `{Hashlib} (env : Env) (files : gmap string (list byte)) (r : ctl unit) :
  (run env files).1 = r -> run env files = (r, (run env files).2).
Proof. intros <-. apply surjective_pairing. Qed.

(** ** The claims *)

(** *** C1: a digest mismatch in the swap branch *)

(** C1: on the release whose manifest lists another digest for
    [yt-dlp.exe], with no call refused, the routine reports the
    verification error and removes the [.new] file, but it does not stop
    there: it goes on to rename the program to [.old], fails to rename the
    removed [.new] file, reports a second error and renames [.old] back.
    The program file ends with its old content after two renames. *)
Theorem C1_mismatch_still_moves_program :
  let rw := run (Examples.win_env Examples.bad_sums Examples.no_faults) Examples.win_files in
  rw.1 = Return PyNone
  /\ errors rw.2
     = [ ReportError
           "Unable to verify the new executable; Visit  https://github.com/yt-dlp/yt-dlp/releases/latest"
           true;
         ReportError "Unable to overwrite current version" false ]
  /\ fs_events rw.2
     = [ FsCreate "C:\tools\yt-dlp.exe.new";
         FsWrite "C:\tools\yt-dlp.exe.new" (Examples.bytes "new build");
         FsRemove "C:\tools\yt-dlp.exe.new";
         FsRename "C:\tools\yt-dlp.exe" "C:\tools\yt-dlp.exe.old";
         FsRename "C:\tools\yt-dlp.exe.old" "C:\tools\yt-dlp.exe" ]
  /\ fs rw.2 !! Examples.exe = Some (Examples.bytes "old build").
Proof. vm_compute. repeat split. Qed.

(** *** C2: the program file after a run *)

(** C2, as stated, fails when the rename back is refused like the rename
    before it: the routine raises and the program file is gone. *)
Lemma C2_counterexample :
  ~ live_path_kept (Examples.win_env Examples.good_sums Examples.both_renames_refused)
      Examples.win_files.
Proof.
  unfold live_path_kept. intros Hkept.
  assert (Hsome : is_Some (Examples.win_files
                    !! program_path (Examples.win_env Examples.good_sums
                                       Examples.both_renames_refused)))
    by (eexists; vm_compute; reflexivity).
  destruct (Hkept Hsome) as [data Hdata].
  vm_compute in Hdata. discriminate Hdata.
Qed.

(** C2, amended: a run that starts with the program file in place ends
    with the file in place, unless the rename back from [.old] was refused;
    then [OSError] leaves the routine, the file is missing and [.old] holds
    its content. In the swap branch, when the rename of [.new] onto the
    program is refused, the file holds its old content again once the
    routine is over, with the same exception. *)
Theorem C2_live_path_kept_unless_rollback_refused `{Hashlib} (env : Env)
        (files : gmap string (list byte)) (old : list byte) (r : ctl unit) (w' : World) :
  files !! program_path env = Some old ->
  run env files = (r, w') ->
  live_path_outcome env old r w'.
Proof.
  intros Hold Hrun. unfold live_path_outcome.
  destruct (path_facts (program_path env)) as (Hof & Hnf & Hno).
  unfold rollback_refused.
  exec Hrun.
  all: finish Hrun.
  all: cbv beta iota zeta delta [fs log].
  all: split; [| intros Hsw Hfault ].
  all: try congruence.
  all: first
         [ left; map_goal; rewrite ?Hold; first [ reflexivity | eexists; reflexivity ]
         | right; repeat split;
           first [ reflexivity | assumption | eexists; reflexivity
                 | map_goal; rewrite ?Hold; reflexivity ] ].
Qed.

Lemma C2_witness :
  Examples.win_files
    !! program_path (Examples.win_env Examples.good_sums Examples.second_rename_refused)
  = Some (Examples.bytes "old build")
  /\ live_path_outcome
       (Examples.win_env Examples.good_sums Examples.second_rename_refused)
       (Examples.bytes "old build")
       (Return PyNone)
       (run (Examples.win_env Examples.good_sums Examples.second_rename_refused)
            Examples.win_files).2.
Proof.
  assert (Hold : Examples.win_files
            !! program_path (Examples.win_env Examples.good_sums
                               Examples.second_rename_refused)
          = Some (Examples.bytes "old build")) by (vm_compute; reflexivity).
  split; [exact Hold|].
  apply (C2_live_path_kept_unless_rollback_refused _ _ _ _ _ Hold).
  apply run_result. vm_compute. reflexivity.
Defined.

(** The rename back did happen in that run. *)
Example C2_rolled_back :
  let rw := run (Examples.win_env Examples.good_sums Examples.second_rename_refused)
                Examples.win_files in
  fs_events rw.2
  = [ FsCreate "C:\tools\yt-dlp.exe.new";
      FsWrite "C:\tools\yt-dlp.exe.new" (Examples.bytes "new build");
      FsRename "C:\tools\yt-dlp.exe" "C:\tools\yt-dlp.exe.old";
      FsRename "C:\tools\yt-dlp.exe.old" "C:\tools\yt-dlp.exe" ]
  /\ fs rw.2 !! Examples.exe = Some (Examples.bytes "old build").
Proof. vm_compute. split; reflexivity. Qed.

(** *** C3: which errors stay inside the routine *)





(** A failure to fetch the checksum manifest is not caught: [OSError]
    leaves the routine after the [.new] file was written. *)
Example C3_manifest_fetch_propagates :
  let rw := run Examples.sums_unreachable_env Examples.win_files in
  rw.1 = Raise OSError
  /\ errors rw.2 = []
  /\ fs rw.2 !! (Examples.exe +:+ ".new") = Some (Examples.bytes "new build").
Proof. vm_compute. repeat split. Qed.

(** When [Popen] is refused after the swap, the handler reports and falls
    through to the assertion at the end of the routine. *)
Example C3_popen_refusal_reaches_assert :
  let rw := run (Examples.win_env Examples.good_sums Examples.popen_refused)
                Examples.win_files in
  rw.1 = Raise AssertionError
  /\ errors rw.2 = [ReportError "Unable to delete the old version" false]
  /\ fs rw.2 !! Examples.exe = Some (Examples.bytes "new build").
Proof. vm_compute. repeat split. Qed.

(** *** C4: which variant is installed how *)




(** The Windows executable, by the swap. *)
Example C4_windows_swap :
  detect_variant (Examples.win_env Examples.good_sums Examples.no_faults) = WinExe
  /\ fs_events (run (Examples.win_env Examples.good_sums Examples.no_faults)
                    Examples.win_files).2
     = swap_sequence Examples.exe (Examples.bytes "new build").
Proof. vm_compute. split; reflexivity. Qed.

(** *** C5: the asset taken for the checksum manifest *)

(** C5: [name in ('SHA2-256SUMS')] tests a substring. On a release that
    lists an asset named [SUMS] before the manifest, that asset is the one
    fetched; its digest for [yt-dlp] differs from the download, and the
    routine reports a verification error although the manifest proper
    carries the matching digest. *)
Theorem C5_substring_selects_manifest :
  let rw := run Examples.sums_first_env Examples.zip_files in
  find selects_as_manifest Examples.sums_first_assets
  = Some (Examples.asset "SUMS" Examples.other_url)
  /\ find named_exactly_manifest Examples.sums_first_assets
     = Some (Examples.asset "SHA2-256SUMS" Examples.sums_url)
  /\ requests rw.2
     = [UrlOpen JSON_URL; UrlOpen Examples.zip_url; UrlOpen Examples.other_url]
  /\ errors rw.2
     = [ ReportError
           "Unable to verify the new package; Visit  https://github.com/yt-dlp/yt-dlp/releases/latest"
           true ]
  /\ digest_one_shot (Examples.bytes "new build")
     = "9893f46b04f2b89047dac4860978f401114b41f20aedf9abac1a7bb218496321".
Proof. vm_compute. repeat split. Qed.

(** *** C6: a release without the asset *)

(** C6, as stated, fails: on a release without the asset of the running
    variant the routine reports an error. *)
Lemma C6_counterexample : ~ absence_not_an_error Examples.no_asset_env Examples.zip_files.
Proof.
  unfold absence_not_an_error. intros Hnone. vm_compute in Hnone. discriminate Hnone.
Qed.

(** C6, amended: when the run gets as far as looking the asset up and no
    asset of the release bears the expected name, the routine reports the
    error [Unable to fetch updates; Visit ...] (flagged as expected, so
    without a traceback), returns [None], requests nothing beyond the
    release and leaves the program file as it was. *)
Theorem C6_missing_asset_reported_as_error `{Hashlib} (env : Env)
        (files : gmap string (list byte)) (info : Release) (label : string) :
  reaches_asset_lookup env files info ->
  dict_get (label_key env) version_labels = Some label ->
  (forall a, a ∈ assets info -> name a <> "yt-dlp" +:+ label) ->
  exists w',
    run env files = (Return PyNone, w')
    /\ errors w' = [fetch_updates_error]
    /\ requests w' = [UrlOpen JSON_URL]
    /\ fs w' !! program_path env = files !! program_path env.
Proof.
  intros [Hrel (current & latest & Hcur & Hlat & Hge) Hnu [Hfault [self Hself]] Hacc Hprep]
         Hlabel Hnone.
  apply find_no_name in Hnone.
  assert (Hurl : find (fun i => String.eqb (name i) ("yt-dlp" +:+ label)) (assets info)
                   ≫= browser_download_url = None) by (by rewrite Hnone).
  clear Hnone.
  destruct (path_facts (program_path env)) as (Hof & Hnf & Hno).
  unfold label_key in Hlabel.
  destruct (run env files) as [r w'] eqn:Hrun.
  destruct (Py.in_tuple (variant_str (detect_variant env)) ["win_exe"; "py2exe"]) eqn:Hsw;
    [ destruct (Hprep eq_refl) as [Hdir Hrm]
    | destruct (String.eqb (variant_str (detect_variant env)) "zip") eqn:Hzip ].
  all: exec Hrun.
  all: finish Hrun.
  all: try (exfalso; eapply no_variant_left; eassumption).
  all: eexists; split; [reflexivity|].
  all: split; [reflexivity|].
  all: split; [reflexivity|].
  all: cbv beta iota delta [fs]; by map_goal.
Qed.

Lemma reaches_asset_lookup_example :
  reaches_asset_lookup Examples.no_asset_env Examples.zip_files
    {| tag_name := "2023.06.01";
       assets := [ Examples.asset "yt-dlp.exe" Examples.exe_url;
                   Examples.asset "SHA2-256SUMS" Examples.sums_url ] |}.
Proof.
  constructor.
  - reflexivity.
  - eexists _, _. repeat split; vm_compute; reflexivity.
  - vm_compute. reflexivity.
  - split; [vm_compute; reflexivity | eexists; vm_compute; reflexivity].
  - reflexivity.
  - intros Hsw. vm_compute in Hsw. discriminate Hsw.
Defined.

Lemma C6_witness :
  reaches_asset_lookup Examples.no_asset_env Examples.zip_files
    {| tag_name := "2023.06.01";
       assets := [ Examples.asset "yt-dlp.exe" Examples.exe_url;
                   Examples.asset "SHA2-256SUMS" Examples.sums_url ] |}
  /\ dict_get (label_key Examples.no_asset_env) version_labels = Some EmptyString
  /\ exists w',
       run Examples.no_asset_env Examples.zip_files = (Return PyNone, w')
       /\ errors w' = [fetch_updates_error]
       /\ requests w' = [UrlOpen JSON_URL]
       /\ fs w' !! program_path Examples.no_asset_env
          = Examples.zip_files !! program_path Examples.no_asset_env.
Proof.
  assert (Hlabel : dict_get (label_key Examples.no_asset_env) version_labels
                   = Some EmptyString) by (vm_compute; reflexivity).
  split; [exact reaches_asset_lookup_example|]. split; [exact Hlabel|].
  apply (C6_missing_asset_reported_as_error _ _ _ _ reaches_asset_lookup_example Hlabel).
  intros a Ha Hname.
  repeat (apply elem_of_cons in Ha as [-> | Ha]; [vm_compute in Hname; discriminate Hname|]).
  by apply elem_of_nil in Ha.
Defined.

(** *** C7: nothing to do when the release is not newer *)

(** C7: for well-formed version strings, when the tuple of the running
    version is greater than or equal to the tuple of the release tag, the
    routine prints the versions and the up-to-date message and returns
    [None]; it has requested the release only and the files are as they
    were. *)
Theorem C7_up_to_date_stops `{Hashlib} (env : Env) (files : gmap string (list byte))
        (info : Release) :
  latest_release env = Some info ->
  well_formed_version (version env) = true ->
  well_formed_version (tag_name info) = true ->
  Py.tuple_ge (parsed (version env)) (parsed (tag_name info)) = true ->
  run env files
  = (Return PyNone,
     {| fs := files;
        log := [ ToScreen ("yt-dlp is up to date (" +:+ version env +:+ ")");
                 ToScreen ("Latest version: " +:+ tag_name info
                             +:+ ", Current version: " +:+ version env);
                 UrlOpen JSON_URL ] |}).
Proof.
  intros Hrel Hwf1 Hwf2 Hge.
  destruct (well_formed_version_parses _ Hwf1) as [current Hcur].
  destruct (well_formed_version_parses _ Hwf2) as [latest Hlat].
  unfold parsed in Hge. rewrite Hcur, Hlat in Hge. simpl in Hge.
  destruct (run env files) as [r w'] eqn:Hrun.
  exec Hrun. by finish Hrun.
Qed.

Lemma C7_witness :
  latest_release Examples.current_env
  = Some {| tag_name := "2023.01.01";
            assets := [Examples.asset "yt-dlp.exe" Examples.exe_url] |}
  /\ well_formed_version (version Examples.current_env) = true
  /\ well_formed_version "2023.01.01" = true
  /\ Py.tuple_ge (parsed (version Examples.current_env)) (parsed "2023.01.01") = true
  /\ run Examples.current_env Examples.win_files
     = (Return PyNone,
        {| fs := Examples.win_files;
           log := [ ToScreen "yt-dlp is up to date (2023.01.01)";
                    ToScreen "Latest version: 2023.01.01, Current version: 2023.01.01";
                    UrlOpen JSON_URL ] |}).
Proof.
  split; [reflexivity|]. split; [reflexivity|]. split; [reflexivity|].
  split; [reflexivity|].
  exact (C7_up_to_date_stops Examples.current_env Examples.win_files _
           eq_refl eq_refl eq_refl eq_refl).
Defined.

(** The order is the one of tuples: a longer tuple with the same start is
    the greater, and fields compare as numbers. *)
Example tuple_order :
  Py.tuple_ge [2023; 1; 0] [2023; 1] = true
  /\ Py.tuple_ge [2023; 1] [2023; 1; 0] = false
  /\ Py.tuple_ge [2023; 10] [2023; 9] = true.
Proof. repeat split. Qed.

(** *** C8: when the routine returns [True] *)



(** *** C9: the streamed digest *)

(** C9: whatever the sizes of the reads, the loop of [calc_sha256sum] ends
    and yields the digest of the whole content taken at once, the one the
    package branch computes on the downloaded bytes; on a file that can be
    opened [calc_sha256sum] returns that digest and changes nothing. *)
Theorem C9_streamed_digest_is_one_shot `{Hashlib} (env env' : Env) (content : list byte)
        (path : string) (w : World) :
  digest_stream env content = Some (digest_one_shot content)
  /\ digest_stream env' content = digest_stream env content
  /\ calc_sha256sum env path w
     = if os_fault env (OsOpenRead (os_path_realpath env path)) then (Raise OSError, w)
       else match fs w !! os_path_realpath env path with
            | Some data => (Next (digest_one_shot data), w)
            | None => (Raise OSError, w)
            end.
Proof.
  unfold digest_one_shot.
  split; [apply digest_stream_spec|].
  split; [by rewrite !digest_stream_spec|].
  unfold calc_sha256sum, bind, open_rb.
  destruct (os_fault env _); [done|].
  destruct (fs w !! _) as [data|]; [|done].
  by rewrite digest_stream_spec.
Qed.

(** With SHA-256 itself: the three bytes [abc] read one byte at a time. *)
Example C9_abc :
  digest_stream
    (Examples.make_env true "win32" None Examples.exe "64bit" None (fun _ => None)
                       Examples.no_faults)
    (Examples.bytes "abc")
  = Some "ba7816bf8f01cfea414140de5dae2223b00361a396177a9cb410ff61f20015ad".
Proof. vm_compute. reflexivity. Qed.

(** *** C10: the py2exe build on a 32-bit interpreter *)

(** C10: [version_labels] has the key [py2exe_64] and no key [py2exe_32].
    For the py2exe variant with the architecture label [32], a run that
    gets as far as looking the asset up raises [KeyError]: no error message
    is reported, nothing beyond the release is requested and the program
    file is as it was. *)
Theorem C10_py2exe_32_raises_KeyError `{Hashlib} (env : Env)
        (files : gmap string (list byte)) (info : Release) :
  detect_variant env = Py2exe ->
  Py.prefix_slice 2 (platform_architecture env) = "32" ->
  reaches_asset_lookup env files info ->
  dict_get "py2exe_32" version_labels = None
  /\ dict_get "py2exe_64" version_labels = Some "_min.exe"
  /\ exists w',
       run env files = (Raise KeyError, w')
       /\ errors w' = []
       /\ requests w' = [UrlOpen JSON_URL]
       /\ fs w' !! program_path env = files !! program_path env.
Proof.
  intros Hv Harch
         [Hrel (current & latest & Hcur & Hlat & Hge) Hnu [Hfault [self Hself]] Hacc Hprep].
  destruct Hprep as [Hdir Hrm]; [by rewrite Hv|].
  split; [reflexivity|]. split; [reflexivity|].
  destruct (path_facts (program_path env)) as (Hof & Hnf & Hno).
  destruct (run env files) as [r w'] eqn:Hrun.
  exec Hrun.
  all: finish Hrun.
  all: eexists; split; [reflexivity|].
  all: split; [reflexivity|].
  all: split; [reflexivity|].
  all: cbv beta iota delta [fs]; by map_goal.
Qed.

Lemma reaches_asset_lookup_py2exe :
  reaches_asset_lookup Examples.py2exe32_env Examples.win_files
    {| tag_name := "2023.06.01";
       assets := [ Examples.asset "yt-dlp.exe" Examples.exe_url;
                   Examples.asset "SHA2-256SUMS" Examples.sums_url ] |}.
Proof.
  constructor.
  - reflexivity.
  - eexists _, _. repeat split; vm_compute; reflexivity.
  - vm_compute. reflexivity.
  - split; [vm_compute; reflexivity | eexists; vm_compute; reflexivity].
  - reflexivity.
  - intros _. split; reflexivity.
Defined.

Lemma C10_witness :
  detect_variant Examples.py2exe32_env = Py2exe
  /\ Py.prefix_slice 2 (platform_architecture Examples.py2exe32_env) = "32"
  /\ exists w',
       run Examples.py2exe32_env Examples.win_files = (Raise KeyError, w')
       /\ errors w' = [].
Proof.
  split; [reflexivity|]. split; [reflexivity|].
  destruct (C10_py2exe_32_raises_KeyError Examples.py2exe32_env Examples.win_files _
              eq_refl eq_refl reaches_asset_lookup_py2exe)
    as (_ & _ & w' & Hrun & Herr & _).
  exists w'. split; assumption.
Defined.

(** ** Further properties of the code *)

(** *** Which installations can update themselves *)

Lemma updateable_by_table (v : Variant) :
  default (default None (dict_get "unknown" _NON_UPDATEABLE_REASONS))
          (dict_get (variant_str v) _NON_UPDATEABLE_REASONS) = None
  <-> updateable_variant v.
Proof.
  unfold updateable_variant.
  destruct v; vm_compute; split; intros Hv; try discriminate Hv; try tauto;
    destruct Hv as [Hv|[Hv|[Hv|Hv]]]; discriminate Hv.
Qed.

Lemma updateable_by_packaging `{Hashlib} (env : Env) :
  updateable_variant (detect_variant env)
  <-> if sys_frozen env
      then truthy (sys_MEIPASS env) = false
           \/ sys_MEIPASS env <> Some (os_path_dirname env (sys_executable env))
      else loader_is_zipimporter env = true.
Proof.
  unfold updateable_variant, detect_variant.
  destruct (sys_frozen env).
  - destruct (truthy (sys_MEIPASS env)).
    + case_bool_decide as Hd; destruct (String.eqb _ _);
        split; intros Hv; try tauto;
        try (destruct Hv as [Hv|[Hv|[Hv|Hv]]]; discriminate Hv);
        try (destruct Hv as [Hv|Hv]; [discriminate Hv | contradiction]).
    + split; intros _; tauto.
  - destruct (loader_is_zipimporter env).
    + split; intros _; tauto.
    + destruct (String.eqb _ _); split; intros Hv; try discriminate Hv;
        destruct Hv as [Hv|[Hv|[Hv|Hv]]]; discriminate Hv.
Qed.

(** X1: [is_non_updateable] gives no reason exactly for a frozen build
    that is not a PyInstaller one-folder build ([_MEIPASS] unset, empty or
    different from the folder of the executable) and for a program loaded
    by [zipimporter]. A reason it gives is never empty, so [run_update]
    always reports it, and every variant [detect_variant] can return has
    its own entry in the table: the fallback to the entry of [unknown] is
    never taken. *)
Theorem X1_updateable_installations `{Hashlib} (env : Env) :
  (is_non_updateable env = None <->
   if sys_frozen env
   then truthy (sys_MEIPASS env) = false
        \/ sys_MEIPASS env <> Some (os_path_dirname env (sys_executable env))
   else loader_is_zipimporter env = true)
  /\ (forall reason, is_non_updateable env = Some reason -> reason <> EmptyString)
  /\ is_Some (dict_get (variant_str (detect_variant env)) _NON_UPDATEABLE_REASONS).
Proof.
  split; [|split].
  - rewrite <- updateable_by_packaging. apply updateable_by_table.
  - unfold is_non_updateable. intros reason.
    destruct (detect_variant env); vm_compute; intros [= <-]; discriminate.
  - destruct (detect_variant env); by eexists.
Qed.

(** *** The suffix table *)

Lemma dict_get_key {V} (k : string) (d : list (string * V)) (v : V) :
  dict_get k d = Some v -> In k (map fst d).
Proof.
  induction d as [|[k' v'] d IH]; simpl; [discriminate|].
  destruct (String.eqb_spec k k') as [->|_]; [by left|]. intros Hd. right. by apply IH.
Qed.

Lemma suffix_table_coverage (v : Variant) (arch : string) :
  is_Some (dict_get (variant_str v +:+ "_" +:+ arch) version_labels) <-> labelled v arch.
Proof.
  unfold labelled. split.
  - intros [label Hl]. apply dict_get_key in Hl. simpl in Hl.
    destruct Hl as [Hk|[Hk|[Hk|[Hk|[Hk|[]]]]]];
      destruct v; cbv in Hk; try discriminate Hk;
      first [ assert (arch = "64") by congruence
            | assert (arch = "32") by congruence
            | assert (arch = "3") by congruence
            | exfalso; congruence ];
      subst; tauto.
  - intros [[-> ->]|[[-> [->| ->]]|[[-> ->]|[-> ->]]]]; by eexists.
Qed.

Lemma not_labelled (v : Variant) (arch : string) :
  dict_get (variant_str v +:+ "_" +:+ arch) version_labels = None <-> ~ labelled v arch.
Proof.
  rewrite <- suffix_table_coverage, <- eq_None_not_Some. reflexivity.
Qed.

(** X2: [get_bin_info] and [get_sha256sum] raise [KeyError], before
    anything is requested or logged, exactly when the variant and the
    architecture (or package type) are none of zip/3, win_exe/64,
    win_exe/32, py2exe/64 and mac_exe/64. *)
Theorem X2_asset_lookup_key_error `{Hashlib} (env : Env) (info : Release) (v : Variant)
        (arch : string) (w : World) :
  (get_bin_info info (variant_str v) arch w = (Raise KeyError, w) <-> ~ labelled v arch)
  /\ (get_sha256sum env info (variant_str v) arch w = (Raise KeyError, w)
      <-> ~ labelled v arch).
Proof.
  rewrite <- !not_labelled.
  unfold get_bin_info, get_sha256sum, version_label, bind, pure, raise.
  destruct (dict_get _ version_labels) as [label|]; split; split; try done.
  destruct (find _ (assets info) ≫= browser_download_url) as [u|]; [|done].
  destruct (negb (truthy (Some u))); [done|].
  unfold opener_open_read, bind, emit, pure, raise.
  destruct (urlopen_read env u) as [raw|]; [|done].
  by destruct (sums_dict _ _).
Qed.

(** *** The checksum manifest *)

Lemma rev_eq {A} (l r : list A) : rev l = r -> l = rev r.
Proof. intros <-. by rewrite rev_involutive. Qed.

Lemma sums_dict_cons (d : gmap string string) (ln : string) (lines : list string) :
  sums_dict d (ln :: lines)
  = match Py.split ln with
    | [v; k] => sums_dict (<[k := v]> d) lines
    | _ => None
    end.
Proof.
  simpl. destruct (rev (Py.split ln)) as [|k [|v [|x r]]] eqn:E;
    apply rev_eq in E; rewrite E; simpl; try reflexivity.
  destruct (rev r) as [|a [|b [|c r']]]; reflexivity.
Qed.


Lemma sums_dict_app (d : gmap string string) (a b : list string) :
  sums_dict d (a ++ b) = sums_dict d a ≫= fun d' => sums_dict d' b.
Proof.
  revert d. induction a as [|ln a IH]; intros d; [reflexivity|].
  rewrite <- app_comm_cons, !sums_dict_cons.
  destruct (Py.split ln) as [|v [|k [|x r]]]; try reflexivity. apply IH.
Qed.

Lemma sums_dict_other (f : string) (d m : gmap string string) (lines : list string) :
  Forall (fun ln => ~ names_file f ln) lines ->
  sums_dict d lines = Some m -> m !! f = d !! f.
Proof.
  revert d. induction lines as [|ln lines IH]; intros d Hno.
  - simpl. by intros [= ->].
  - rewrite sums_dict_cons. apply Forall_cons in Hno as [Hln Hno].
    destruct (Py.split ln) as [|v [|k [|x r]]] eqn:E; try discriminate.
    intros Hm. rewrite (IH _ Hno Hm). apply lookup_insert_ne.
    intros ->. apply Hln. by exists v.
Qed.

(** X4: in an accepted manifest the digest looked up for a file name is
    the first token of the last line whose second token is that name, and
    there is none when no line names the file. *)
Theorem X4_manifest_last_line_wins (lines : list string) (m : gmap string string)
        (f : string) :
  sums_dict ∅ lines = Some m ->
  (Forall (fun ln => ~ names_file f ln) lines -> m !! f = None)
  /\ (forall pre ln post dg,
        lines = pre ++ ln :: post -> Py.split ln = [dg; f] ->
        Forall (fun l => ~ names_file f l) post -> m !! f = Some dg).
Proof.
  intros Hm. split.
  - intros Hno. by rewrite (sums_dict_other f _ _ _ Hno Hm).
  - intros pre ln post dg -> Hln Hno. rewrite sums_dict_app in Hm.
    destruct (sums_dict ∅ pre) as [d'|]; [|discriminate].
    change (sums_dict d' (ln :: post) = Some m) in Hm.
    rewrite sums_dict_cons, Hln in Hm.
    rewrite (sums_dict_other f _ _ _ Hno Hm). apply lookup_insert_eq.
Qed.

Lemma X4_witness :
  sums_dict ∅ Scenarios.twice_named = Some Scenarios.twice_named_dict
  /\ Scenarios.twice_named_dict !! "yt-dlp" = Some "cc".
Proof.
  assert (Hm : sums_dict ∅ Scenarios.twice_named = Some Scenarios.twice_named_dict)
    by reflexivity.
  split; [exact Hm|].
  apply (proj2 (X4_manifest_last_line_wins _ _ "yt-dlp" Hm)
               ["aa  yt-dlp"; "bb  yt-dlp.exe"] "cc  yt-dlp" [] "cc").
  - reflexivity.
  - reflexivity.
  - constructor.
Defined.

(** *** The order on versions *)

(** X5: the comparison that decides whether the program is up to date is
    a total order on version tuples (reflexive, total, antisymmetric,
    transitive), and a version that continues another with further fields
    is the newer one. *)
Theorem X5_version_order :
  (forall a, Py.tuple_ge a a = true)
  /\ (forall a b, Py.tuple_ge a b = false -> Py.tuple_ge b a = true)
  /\ (forall a b, Py.tuple_ge a b = true -> Py.tuple_ge b a = true -> a = b)
  /\ (forall a b c, Py.tuple_ge a b = true -> Py.tuple_ge b c = true -> Py.tuple_ge a c = true)
  /\ (forall a more, Py.tuple_ge (a ++ more) a = true)
  /\ (forall a more, more <> [] -> Py.tuple_ge a (a ++ more) = false).
Proof.
  repeat split.
  - induction a as [|x a IH]; simpl; [done|]. by rewrite Z.eqb_refl.
  - induction a as [|x a IH]; intros [|y b]; simpl; try done.
    rewrite (Z.eqb_sym y x). destruct (Z.eqb_spec x y); [apply IH | lia].
  - induction a as [|x a IH]; intros [|y b]; simpl; try done.
    rewrite (Z.eqb_sym y x). destruct (Z.eqb_spec x y) as [->|]; [|lia].
    intros ? ?. f_equal. by apply IH.
  - induction a as [|x a IH]; intros [|y b] [|z c]; simpl; try done.
    destruct (Z.eqb_spec x y), (Z.eqb_spec y z), (Z.eqb_spec x z);
      rewrite ?Z.ltb_lt; try lia. apply IH.
  - induction a as [|x a IH]; intros more; simpl; [by destruct more|].
    by rewrite Z.eqb_refl.
  - induction a as [|x a IH]; intros more Hne; simpl; [by destruct more|].
    rewrite Z.eqb_refl. by apply IH.
Qed.

(** *** Runs that stop before anything is touched *)

(** X6: when the release description cannot be fetched or decoded, the
    routine requests nothing else, reports one expected error ("Unable to
    obtain version info; Please try again later or Visit  ...") and
    returns [None] with every file as it was. *)
Theorem X6_unreachable_release_info `{Hashlib} (env : Env)
        (files : gmap string (list byte)) :
  latest_release env = None ->
  run env files
  = (Return PyNone, {| fs := files; log := [version_info_error; UrlOpen JSON_URL] |}).
Proof.
  intros Hrel. unfold run, run_update, fetch_version_info.
  cbv beta iota zeta delta [bind try_except emit raise any_Exception
                            report_network_error report_unable report_error ret fs log].
  rewrite Hrel. reflexivity.
Qed.

Lemma X6_witness :
  latest_release Scenarios.offline_env = None
  /\ run Scenarios.offline_env Examples.win_files
     = (Return PyNone,
        {| fs := Examples.win_files; log := [version_info_error; UrlOpen JSON_URL] |}).
Proof.
  split; [reflexivity|].
  apply (X6_unreachable_release_info Scenarios.offline_env Examples.win_files). reflexivity.
Defined.



(** X8: for a variant that cannot update itself and a newer release, the
    routine reports the reason of the variant as an expected error and
    returns [None]; the program file is not even read, nothing further is
    requested and no file is touched. *)
Theorem X8_non_updateable_variant_stops `{Hashlib} (env : Env)
        (files : gmap string (list byte)) (info : Release) (current latest : list Z)
        (reason : string) :
  latest_release env = Some info ->
  mapM Py.int (Py.split_on "." (version env)) = Some current ->
  mapM Py.int (Py.split_on "." (tag_name info)) = Some latest ->
  Py.tuple_ge current latest = false ->
  is_non_updateable env = Some reason ->
  run env files
  = (Return PyNone,
     {| fs := files;
        log := [ReportError reason true; latest_version_line env info; UrlOpen JSON_URL] |}).
Proof.
  intros Hrel Hcur Hlat Hge Hreason.
  assert (Htruthy : truthy (is_non_updateable env) = true).
  { rewrite truthy_non_updateable. revert Hreason. unfold is_non_updateable.
    destruct (detect_variant env); vm_compute; congruence. }
  destruct (run env files) as [r w'] eqn:Hrun.
  exec Hrun. rewrite Hreason in Hrun. exact (eq_sym Hrun).
Qed.

Lemma X8_witness :
  exists reason,
    is_non_updateable Scenarios.onedir_env = Some reason
    /\ (run Scenarios.onedir_env Examples.win_files).1 = Return PyNone
    /\ errors (run Scenarios.onedir_env Examples.win_files).2 = [ReportError reason true].
Proof.
  eexists. split; [vm_compute; reflexivity|].
  rewrite (X8_non_updateable_variant_stops Scenarios.onedir_env Examples.win_files
             Scenarios.win_release_info [2023; 1; 1] [2023; 6; 1] _
             eq_refl ltac:(vm_compute; reflexivity) ltac:(vm_compute; reflexivity)
             eq_refl ltac:(vm_compute; reflexivity)).
  split; reflexivity.
Defined.

(** X9: when the program file is not writable, or, in the swap branch,
    its directory is not, the run downloads nothing and changes no file:
    the release description is the only request, the file system is as
    before and the result is not [True]. *)
Theorem X9_refused_permission_changes_nothing `{Hashlib} (env : Env)
        (files : gmap string (list byte)) (r : ctl unit) (w' : World) :
  os_access_w env (program_path env) = false
  \/ (Py.in_tuple (variant_str (detect_variant env)) ["win_exe"; "py2exe"] = true
      /\ os_access_w env (os_path_dirname env (program_path env)) = false) ->
  run env files = (r, w') ->
  fs w' = files /\ requests w' = [UrlOpen JSON_URL] /\ r <> Return PyTrue.
Proof.
  intros [Hacc|[Hsw Hacc]] Hrun.
  all: exec Hrun.
  all: finish Hrun.
  all: repeat split; first [reflexivity | discriminate].
Qed.

Lemma X9_witness :
  os_access_w Scenarios.readonly_env (program_path Scenarios.readonly_env) = false
  /\ fs (run Scenarios.readonly_env Examples.win_files).2 = Examples.win_files
  /\ requests (run Scenarios.readonly_env Examples.win_files).2 = [UrlOpen JSON_URL]
  /\ (Return PyNone : ctl unit) <> Return PyTrue.
Proof.
  split; [reflexivity|].
  apply (X9_refused_permission_changes_nothing Scenarios.readonly_env Examples.win_files).
  - left. reflexivity.
  - apply run_result. vm_compute. reflexivity.
Defined.

(** *** What every run respects *)

Lemma find_asset (p : Asset -> bool) (l : list Asset) (u : string) :
  find p l ≫= browser_download_url = Some u ->
  exists a, a ∈ l /\ p a = true /\ browser_download_url a = Some u.
Proof.
  destruct (find p l) as [a|] eqn:E; [|discriminate].
  intros Hu. apply find_some in E as [Hin Hp].
  exists a. by rewrite list_elem_of_In.
Qed.


Lemma url_of_asset (env : Env) (info : Release) (p : Asset -> bool) (u : string) :
  latest_release env = Some info ->
  find p (assets info) ≫= browser_download_url = Some u ->
  asset_url env u.
Proof.
  intros Hrel Hfind. apply find_asset in Hfind as (a & Hin & _ & Hu). by exists info, a.
Qed.




(** X10: a run touches the program file and its [.new] and [.old]
    siblings only: every other path holds after the run what it held
    before, however the run ends. *)
Theorem X10_other_files_untouched `{Hashlib} (env : Env) (files : gmap string (list byte))
        (r : ctl unit) (w' : World) (p : string) :
  run env files = (r, w') ->
  p <> program_path env ->
  p <> program_path env +:+ ".new" ->
  p <> program_path env +:+ ".old" ->
  fs w' !! p = files !! p.
Proof.
  intros Hrun Hp Hpn Hpo.
  exec Hrun.
  all: finish Hrun.
  all: cbv beta iota zeta delta [fs log].
  all: by map_goal.
Qed.

Lemma X10_witness :
  Scenarios.notes <> program_path Scenarios.win_good
  /\ fs (run Scenarios.win_good (<[Scenarios.notes := []]> Examples.win_files)).2
       !! Scenarios.notes
     = (<[Scenarios.notes := []]> Examples.win_files) !! Scenarios.notes.
Proof.
  split; [vm_compute; discriminate|].
  apply (X10_other_files_untouched Scenarios.win_good
           (<[Scenarios.notes := []]> Examples.win_files) (Return PyTrue)).
  - apply run_result. vm_compute. reflexivity.
  - vm_compute; discriminate.
  - vm_compute; discriminate.
  - vm_compute; discriminate.
Defined.

(** X11: a run requests the release description first and after it at
    most two URLs, each the download URL of an asset listed in that
    release. *)
Theorem X11_requests_of_a_run `{Hashlib} (env : Env) (files : gmap string (list byte))
        (r : ctl unit) (w' : World) :
  run env files = (r, w') ->
  requests_outcome env w'.
Proof.
  intros Hrun. unfold requests_outcome.
  destruct (path_facts (program_path env)) as (Hof & Hnf & Hno).
  exec Hrun.
  all: finish Hrun.
  all: first
         [ exists []; split; [reflexivity|]; split; [simpl; lia | constructor]
         | eexists [_]; split; [reflexivity|]; split; [simpl; lia|];
           repeat constructor; eapply url_of_asset; eassumption
         | eexists [_; _]; split; [reflexivity|]; split; [simpl; lia|];
           repeat constructor; eapply url_of_asset; eassumption ].
Qed.

Lemma X11_witness :
  run Scenarios.win_good Examples.win_files
  = (Return PyTrue, (run Scenarios.win_good Examples.win_files).2)
  /\ requests_outcome Scenarios.win_good (run Scenarios.win_good Examples.win_files).2.
Proof.
  assert (Hrun : run Scenarios.win_good Examples.win_files
                 = (Return PyTrue, (run Scenarios.win_good Examples.win_files).2))
    by (apply run_result; vm_compute; reflexivity).
  split; [exact Hrun|].
  exact (X11_requests_of_a_run _ _ _ _ Hrun).
Defined.







(** X15: a run that returns [None] and has reported no error either
    found the program up to date and changed nothing, or has written the
    package over the program file and printed the request to restart. *)
Theorem X15_quiet_none_means_done `{Hashlib} (env : Env) (files : gmap string (list byte))
        (w' : World) :
  run env files = (Return PyNone, w') ->
  errors w' = [] ->
  quiet_outcome env files w'.
Proof.
  intros Hrun Herr. unfold quiet_outcome.
  destruct (path_facts (program_path env)) as (Hof & Hnf & Hno).
  exec Hrun.
  all: finish Hrun.
  all: try discriminate Herr.
  all: cbv beta iota zeta delta [fs log].
  all: first
         [ left; split; [reflexivity | eexists; reflexivity]
         | right; eexists _, _, _; split; [first [eassumption | reflexivity]|];
           split; [by map_goal | reflexivity] ].
Qed.

Lemma X15_witness :
  run Examples.mac_env Examples.mac_files
  = (Return PyNone, (run Examples.mac_env Examples.mac_files).2)
  /\ errors (run Examples.mac_env Examples.mac_files).2 = []
  /\ quiet_outcome Examples.mac_env Examples.mac_files
       (run Examples.mac_env Examples.mac_files).2.
Proof.
  assert (Hrun : run Examples.mac_env Examples.mac_files
                 = (Return PyNone, (run Examples.mac_env Examples.mac_files).2))
    by (apply run_result; vm_compute; reflexivity).
  assert (Herr : errors (run Examples.mac_env Examples.mac_files).2 = [])
    by (vm_compute; reflexivity).
  split; [exact Hrun|]. split; [exact Herr|].
  exact (X15_quiet_none_means_done _ _ _ Hrun Herr).
Defined.

(** *** Runs that install the release *)

(** X16: in the swap branch, when the run gets as far as the asset
    lookup, the release offers the asset and serves it, the manifest (if
    any) does not contradict it and no file operation is refused, the
    routine returns [True] without an error: the program file holds the
    download, [.old] holds the previous program and [.new] is gone. *)
Theorem X16_swap_update_succeeds `{Hashlib} (env : Env) (files : gmap string (list byte))
        (info : Release) (label u : string) (c old : list byte) :
  reaches_asset_lookup env files info ->
  Py.in_tuple (variant_str (detect_variant env)) ["win_exe"; "py2exe"] = true ->
  download_ready env info label u c ->
  swap_unhindered env ->
  files !! program_path env = Some old ->
  exists w',
    run env files = (Return PyTrue, w')
    /\ fs w' !! program_path env = Some c
    /\ fs w' !! (program_path env +:+ ".old") = Some old
    /\ fs w' !! (program_path env +:+ ".new") = None
    /\ errors w' = [].
Proof.
  intros [Hrel (current & latest & Hcur & Hlat & Hge) Hnu [Hfault [self Hself]] Hacc Hprep]
         Hsw [Hlabel Hasset Hurl Hserved Hsums]
         [Hcreate Hwrite Hreal Hread Haside Hin Hpopen] Hold.
  destruct (Hprep Hsw) as [Hdir Hrm].
  unfold label_key in Hlabel. rewrite Hsw in Hlabel. unfold cleanup_cmd in Hpopen.
  destruct (path_facts (program_path env)) as (Hof & Hnf & Hno).
  destruct (run env files) as [r w'] eqn:Hrun.
  exec Hrun.
  all: try match goal with
       | E' : truthy (Some ?su) = true |- _ =>
           destruct (Hsums su ltac:(first [reflexivity | assumption]) E')
             as (raw & g' & Hraw & Hg & Hdigest)
       end.
  all: rewrite ?Hreal in *.
  all: try congruence.
  all: try match goal with
       | E : _ !! _ = _ |- _ => revert E; progress map_goal; intros E
       end.
  all: try congruence.
  all: try (finish Hrun; eexists; split; [reflexivity|];
            cbv beta iota zeta delta [fs log]; repeat split;
            first [by map_goal | reflexivity]).
  all: exfalso.
  all: match goal with
       | E : bool_decide _ = false |- _ => apply bool_decide_eq_false in E; apply E
       end.
  all: unfold digest_one_shot in Hdigest.
  all: assert (g' = g) as -> by congruence.
  all: rewrite Hdigest by assumption; congruence.
Qed.

Lemma win_good_reaches_lookup :
  reaches_asset_lookup Scenarios.win_good Examples.win_files Scenarios.win_release_info.
Proof.
  constructor.
  - reflexivity.
  - exists [2023; 1; 1], [2023; 6; 1]. repeat split; vm_compute; reflexivity.
  - vm_compute. reflexivity.
  - split; [reflexivity | eexists; vm_compute; reflexivity].
  - reflexivity.
  - intros _. split; reflexivity.
Defined.

Lemma win_good_download_ready :
  download_ready Scenarios.win_good Scenarios.win_release_info
    ".exe" Examples.exe_url (Examples.bytes "new build").
Proof.
  constructor.
  - vm_compute. reflexivity.
  - vm_compute. reflexivity.
  - reflexivity.
  - vm_compute. reflexivity.
  - intros su Hsu _. vm_compute in Hsu. injection Hsu as <-.
    eexists _, _. split; [vm_compute; reflexivity|].
    split; [vm_compute; reflexivity|].
    intros _. vm_compute. reflexivity.
Defined.

Lemma win_good_unhindered : swap_unhindered Scenarios.win_good.
Proof. constructor; reflexivity. Defined.

Lemma X16_witness :
  exists w',
    run Scenarios.win_good Examples.win_files = (Return PyTrue, w')
    /\ fs w' !! program_path Scenarios.win_good = Some (Examples.bytes "new build")
    /\ fs w' !! (program_path Scenarios.win_good +:+ ".old")
       = Some (Examples.bytes "old build")
    /\ fs w' !! (program_path Scenarios.win_good +:+ ".new") = None
    /\ errors w' = [].
Proof.
  apply (X16_swap_update_succeeds Scenarios.win_good Examples.win_files _
           ".exe" Examples.exe_url (Examples.bytes "new build") (Examples.bytes "old build")
           win_good_reaches_lookup).
  - vm_compute. reflexivity.
  - exact win_good_download_ready.
  - exact win_good_unhindered.
  - vm_compute. reflexivity.
Defined.

(** X17: in the package branch, under the same conditions on the release
    and with the write over the program file not refused, the routine
    returns [None] without an error after exactly one creation and one
    write of the program file, which holds the download. *)
Theorem X17_package_update_succeeds `{Hashlib} (env : Env)
        (files : gmap string (list byte)) (info : Release) (label u : string)
        (c : list byte) :
  reaches_asset_lookup env files info ->
  Py.in_tuple (variant_str (detect_variant env)) ["zip"; "mac_exe"] = true ->
  download_ready env info label u c ->
  os_fault env (OsOpenWrite (program_path env)) = false ->
  os_fault env (OsWrite (program_path env)) = false ->
  exists w',
    run env files = (Return PyNone, w')
    /\ fs w' !! program_path env = Some c
    /\ fs_events w' = [FsCreate (program_path env); FsWrite (program_path env) c]
    /\ errors w' = [].
Proof.
  intros [Hrel (current & latest & Hcur & Hlat & Hge) Hnu [Hfault [self Hself]] Hacc _]
         Hpk [Hlabel Hasset Hurl Hserved Hsums] Hcreate Hwrite.
  destruct (Py.in_tuple (variant_str (detect_variant env)) ["win_exe"; "py2exe"]) eqn:Hsw;
    [exfalso; eapply tuples_disjoint; eassumption|].
  unfold label_key in Hlabel. rewrite Hsw in Hlabel.
  destruct (String.eqb (variant_str (detect_variant env)) "zip") eqn:Hzip.
  all: destruct (run env files) as [r w'] eqn:Hrun.
  all: exec Hrun.
  all: try match goal with
       | E' : truthy (Some ?su) = true |- _ =>
           destruct (Hsums su ltac:(first [reflexivity | assumption]) E')
             as (raw & g' & Hraw & Hg & Hdigest)
       end.
  all: try congruence.
  all: try (finish Hrun; eexists; split; [reflexivity|];
            cbv beta iota zeta delta [fs log]; repeat split;
            first [by map_goal | reflexivity]).
  all: exfalso.
  all: match goal with
       | E : bool_decide _ = false |- _ => apply bool_decide_eq_false in E; apply E
       end.
  all: assert (g' = g) as -> by congruence.
  all: rewrite Hdigest by assumption; reflexivity.
Qed.

Lemma mac_reaches_lookup :
  reaches_asset_lookup Examples.mac_env Examples.mac_files Scenarios.mac_release_info.
Proof.
  constructor.
  - reflexivity.
  - exists [2023; 1; 1], [2023; 6; 1]. repeat split; vm_compute; reflexivity.
  - vm_compute. reflexivity.
  - split; [reflexivity | eexists; vm_compute; reflexivity].
  - reflexivity.
  - intros Hsw. vm_compute in Hsw. discriminate Hsw.
Defined.

Lemma mac_download_ready :
  download_ready Examples.mac_env Scenarios.mac_release_info
    "_macos" Examples.mac_url (Examples.bytes "new build").
Proof.
  constructor.
  - vm_compute. reflexivity.
  - vm_compute. reflexivity.
  - reflexivity.
  - vm_compute. reflexivity.
  - intros su Hsu _. vm_compute in Hsu. injection Hsu as <-.
    eexists _, _. split; [vm_compute; reflexivity|].
    split; [vm_compute; reflexivity|].
    intros _. vm_compute. reflexivity.
Defined.

Lemma X17_witness :
  exists w',
    run Examples.mac_env Examples.mac_files = (Return PyNone, w')
    /\ fs w' !! program_path Examples.mac_env = Some (Examples.bytes "new build")
    /\ fs_events w'
       = [FsCreate (program_path Examples.mac_env);
          FsWrite (program_path Examples.mac_env) (Examples.bytes "new build")]
    /\ errors w' = [].
Proof.
  apply (X17_package_update_succeeds Examples.mac_env Examples.mac_files _
           "_macos" Examples.mac_url (Examples.bytes "new build") mac_reaches_lookup).
  - vm_compute. reflexivity.
  - exact mac_download_ready.
  - reflexivity.
  - reflexivity.
Defined.
